(** * Azul_installer.py: a shallow embedding of the Zulu JDK installer

    The Python module [Azul_installer.py] is modelled function by function.
    Python exceptions are values of [exc] (class name and message); a
    fallible function returns [res A].  Functions that touch the
    filesystem are state transformers [fs -> fs * res A], i.e. a small
    state-and-exception monad [ST fs A]. *)

From Stdlib Require Import String Ascii List Bool Arith Lia.
Import ListNotations.
Open Scope string_scope.
Open Scope list_scope.

(* ------------------------------------------------------------------ *)
(** ** Python values: exceptions, results, strings *)

Record exc := mkExc { exc_class : string; exc_msg : string }.

Inductive res (A : Type) : Type :=
| Ok (a : A)
| Err (e : exc).
Arguments Ok {A} a.
Arguments Err {A} e.

(** A state-and-exception monad: the state after the call is returned
    also when the call raises (mutations done before a raise persist). *)
Definition ST (S A : Type) : Type := S -> S * res A.

Definition ret {S A} (a : A) : ST S A := fun s => (s, Ok a).
Definition raise {S A} (e : exc) : ST S A := fun s => (s, Err e).
Definition bind {S A B} (m : ST S A) (k : A -> ST S B) : ST S B :=
  fun s => match m s with
           | (s1, Ok a) => k a s1
           | (s1, Err e) => (s1, Err e)
           end.
Definition of_res {S A} (r : res A) : ST S A := fun s => (s, r).

(** [try: m finally: f]: [f] always runs; an exception raised by [f]
    replaces the one of [m], as in Python. *)
Definition try_finally {S A} (m : ST S A) (f : ST S unit) : ST S A :=
  fun s => match m s with
           | (s1, r) => match f s1 with
                        | (s2, Ok _) => (s2, r)
                        | (s2, Err e) => (s2, Err e)
                        end
           end.

Notation "x <- c1 ;; c2" := (bind c1 (fun x => c2))
  (at level 61, c1 at next level, right associativity).
Notation "' p <- c1 ;; c2" := (bind c1 (fun x => match x with p => c2 end))
  (at level 61, p pattern, c1 at next level, right associativity).
Notation "c1 ;; c2" := (bind c1 (fun _ => c2))
  (at level 61, right associativity).

(** String helpers with Python's semantics. *)

(** [str_prefix p s]: [s.startswith(p)]. *)
Fixpoint str_prefix (p s : string) : bool :=
  match p, s with
  | EmptyString, _ => true
  | String a p', String b s' => Ascii.eqb a b && str_prefix p' s'
  | String _ _, EmptyString => false
  end.

(** [str_contains n h]: Python's [n in h]. *)
Fixpoint str_contains (n h : string) : bool :=
  str_prefix n h || match h with
                    | EmptyString => false
                    | String _ h' => str_contains n h'
                    end.

(** Number of positions of [h] where [n] occurs. *)
Fixpoint count_occ (n h : string) : nat :=
  (if str_prefix n h then 1 else 0) +
  match h with
  | EmptyString => 0
  | String _ h' => count_occ n h'
  end.

(** [s.endswith(suf)]. *)
Definition str_endswith (s suf : string) : bool :=
  let n := String.length s in
  let m := String.length suf in
  Nat.leb m n && String.eqb (substring (n - m) m s) suf.

Definition lower_ascii (c : ascii) : ascii :=
  let n := nat_of_ascii c in
  if Nat.leb 65 n && Nat.leb n 90 then ascii_of_nat (n + 32) else c.

(** [s.lower()] (ASCII letters). *)
Fixpoint str_lower (s : string) : string :=
  match s with
  | EmptyString => EmptyString
  | String c s' => String (lower_ascii c) (str_lower s')
  end.

(** [environ.get(k, default)] on an environment given as a list of pairs. *)
Fixpoint env_get (env : list (string * string)) (k d : string) : string :=
  match env with
  | [] => d
  | (k', v) :: env' => if String.eqb k k' then v else env_get env' k d
  end.

Fixpoint env_set (env : list (string * string)) (k v : string)
  : list (string * string) :=
  match env with
  | [] => [(k, v)]
  | (k', v') :: env' =>
      if String.eqb k k' then (k, v) :: env' else (k', v') :: env_set env' k v
  end.

(* ------------------------------------------------------------------ *)
(** ** Filesystem *)

(** An absolute path as its list of components; [[]] is the root. *)
Definition path := list string.

(** [str(p)] of a POSIX [Path]. *)
Definition str_path (p : path) : string := "/" ++ String.concat "/" p.

Inductive entry := EDir | EFile (contents : string).

(** The filesystem: one entry per existing path other than the root; the
    order of the list is the order in which [os.listdir] reports entries. *)
Definition fs := list (path * entry).

Definition path_eqb (p q : path) : bool :=
  if list_eq_dec string_dec p q then true else false.

Fixpoint path_prefix (p q : path) : bool :=
  match p, q with
  | [], _ => true
  | a :: p', b :: q' => String.eqb a b && path_prefix p' q'
  | _ :: _, [] => false
  end.

Fixpoint lookup (p : path) (t : fs) : option entry :=
  match t with
  | [] => None
  | (q, e) :: t' => if path_eqb p q then Some e else lookup p t'
  end.

(** What is at [p]: the root is always a directory. *)
Definition kind (p : path) (t : fs) : option entry :=
  match p with
  | [] => Some EDir
  | _ => lookup p t
  end.

(** [Path.exists], [Path.is_dir], [Path.is_file]. *)
Definition path_exists (p : path) (t : fs) : bool :=
  match kind p t with Some _ => true | None => false end.
Definition is_dir (p : path) (t : fs) : bool :=
  match kind p t with Some EDir => true | _ => false end.
Definition is_file (p : path) (t : fs) : bool :=
  match kind p t with Some (EFile _) => true | _ => false end.

Definition mk_exc (cls msg : string) : exc := mkExc cls msg.

(** [Path.iterdir]: the children of [d], in listing order. *)
Definition is_child (d q : path) : bool :=
  path_prefix d q && Nat.eqb (List.length q) (S (List.length d)).

Definition children (d : path) (t : fs) : list path :=
  flat_map (fun '(q, _) => if is_child d q then [q] else []) t.

Definition iterdir (d : path) (t : fs) : res (list path) :=
  match kind d t with
  | None => Err (mk_exc "FileNotFoundError" (str_path d))
  | Some (EFile _) => Err (mk_exc "NotADirectoryError" (str_path d))
  | Some EDir => Ok (children d t)
  end.

(** The non-root prefixes of a path, shortest first. *)
Fixpoint prefixes (p : path) : list path :=
  match p with
  | [] => []
  | a :: p' => [a] :: map (cons a) (prefixes p')
  end.

(** [p.mkdir(parents=True, exist_ok=True)]: fails, without creating
    anything, when [p] or one of its ancestors is a file; otherwise
    creates the missing ancestors and [p], top-down. *)
Definition mkdir_p (p : path) : ST fs unit :=
  fun t =>
    match find (fun q => is_file q t) (prefixes p) with
    | Some q =>
        (t, Err (mk_exc (if path_eqb q p then "FileExistsError"
                         else "NotADirectoryError") (str_path p)))
    | None =>
        (fold_left (fun acc q => if path_exists q acc then acc
                                 else acc ++ [(q, EDir)])
                   (prefixes p) t, Ok tt)
    end.

(** [os.rename(src, dst)] on a tree: every entry under [src] is moved
    under [dst]. *)
Definition rename (src dst : path) (t : fs) : fs :=
  map (fun '(q, e) =>
         if path_prefix src q then (dst ++ skipn (List.length src) q, e)
         else (q, e)) t.

(** [shutil.move(src, dst)] for a directory [src] and an absent [dst]. *)
Definition shutil_move (src dst : path) : ST fs unit :=
  fun t =>
    if path_prefix src dst
    then (t, Err (mk_exc "shutil.Error"
                   ("Cannot move a directory '" ++ str_path src
                    ++ "' into itself '" ++ str_path dst ++ "'.")))
    else (rename src dst t, Ok tt).

(** [shutil.rmtree(p, ignore_errors=True)]: never raises. *)
Definition rmtree (p : path) (t : fs) : fs :=
  filter (fun '(q, _) => negb (path_prefix p q)) t.

(** [Path.name]. *)
Definition path_name (p : path) : string := last p "".

(* ------------------------------------------------------------------ *)
(** ** [choose_permanent_base] *)

(** Attribute access on the [os] module: only [environ] is modelled; any
    other name raises [AttributeError], as Python does. *)
Definition os_getattr (env : list (string * string)) (attr : string)
  : res (list (string * string)) :=
  if String.eqb attr "environ" then Ok env
  else Err (mk_exc "AttributeError"
              ("module 'os' has no attribute '" ++ attr ++ "'")).

(** [choose_permanent_base(os_name)]: [is_root] is [_is_root_unix()],
    [home] is [Path.home()], [env] is [os.environ].  A Windows path
    string is kept as a single component. *)
Definition choose_permanent_base (os_name : string) (is_root : bool)
           (home : path) (env : list (string * string)) : res path :=
  if String.eqb os_name "linux" then
    Ok (if is_root then ["usr"; "local"; "lib"; "jvm"]
        else home ++ [".local"; "share"; "java"])
  else if String.eqb os_name "macos" then
    Ok (if is_root then ["Library"; "Java"; "JavaVirtualMachines"]
        else home ++ ["Library"; "Java"; "JavaVirtualMachines"])
  else if String.eqb os_name "windows" then
    match os_getattr env "eniron" with
    | Ok e => Ok [env_get e "ProgramFiles" "C:\Program Files"; "Zulu"]
    | Err x => Err x
    end
  else
    match os_getattr env "eniron" with
    | Ok e => Ok [env_get e "LOCALAPPDATA" ""; "Programs"; "Zulu"]
    | Err x => Err x
    end.

(* ------------------------------------------------------------------ *)
(** ** [move_extracted_to_base] *)

Definition move_extracted_to_base (tmp_extract_dir base : path) : ST fs path :=
  fun t =>
    match iterdir tmp_extract_dir t with
    | Err e => (t, Err e)
    | Ok ps =>
        match filter (fun p => is_dir p t) ps with
        | [] => (t, Err (mk_exc "RuntimeError"
                           "Extraction failed, no contents found."))
        | src_root :: _ =>
            (mkdir_p base ;;
             (fun t1 =>
                let dest := base ++ [path_name src_root] in
                if path_exists dest t1 then (t1, Ok dest)
                else (shutil_move src_root dest ;; ret dest) t1)) t
        end
    end.

(* ------------------------------------------------------------------ *)
(** ** [persist_env_posix] *)

Definition nl : string := String (ascii_of_nat 10) EmptyString.
Definition dq : string := String (ascii_of_nat 34) EmptyString.

Definition marker : string := "# >>> zulu-jdk (managed) >>>".

(** The managed block, as the f-string of [persist_env_posix] builds it. *)
Definition block (jdk_root : path) : string :=
  nl ++ marker ++ nl ++
  "export JAVA_HOME=" ++ dq ++ str_path jdk_root ++ dq ++ nl ++
  "export PATH=" ++ dq ++ "$JAVA_HOME/bin:$PATH" ++ dq ++ nl ++
  "# <<< zulu-jdk (managed) <<<" ++ nl.

(** [Path.read_text]. *)
Definition read_text (p : path) (t : fs) : res string :=
  match kind p t with
  | Some (EFile c) => Ok c
  | Some EDir => Err (mk_exc "IsADirectoryError" (str_path p))
  | None => Err (mk_exc "FileNotFoundError" (str_path p))
  end.

Definition set_entry (p : path) (e : entry) (t : fs) : fs :=
  map (fun '(q, e') => if path_eqb p q then (q, e) else (q, e')) t.

(** [with p.open("a") as f: f.write(s)]. *)
Definition append_text (p : path) (s : string) : ST fs unit :=
  fun t =>
    match kind p t with
    | Some (EFile c) => (set_entry p (EFile (c ++ s)) t, Ok tt)
    | Some EDir => (t, Err (mk_exc "IsADirectoryError" (str_path p)))
    | None =>
        if is_dir (removelast p) t then (t ++ [(p, EFile s)], Ok tt)
        else (t, Err (mk_exc "FileNotFoundError" (str_path p)))
    end.

(** The rc-file candidates: zsh files when [$SHELL] mentions zsh. *)
Definition rc_candidates (env : list (string * string)) (home : path)
  : list path :=
  if str_contains "zsh" (env_get env "SHELL" "")
  then [home ++ [".zshrc"]; home ++ [".zprofile"]]
  else [home ++ [".bashrc"]; home ++ [".profile"]].

(** [next((p for p in candidates if p.exists()), Path.home()/".profile")]. *)
Definition rc_target (env : list (string * string)) (home : path) (t : fs)
  : path :=
  match find (fun p => path_exists p t) (rc_candidates env home) with
  | Some p => p
  | None => home ++ [".profile"]
  end.

(** [persist_env_posix(jdk_root)]; [env] is [os.environ], [home] is
    [Path.home()]. *)
Definition persist_env_posix (env : list (string * string)) (home : path)
           (jdk_root : path) : ST fs unit :=
  fun t =>
    let target := rc_target env home t in
    let text := if path_exists target t then read_text target t else Ok "" in
    match text with
    | Err e => (t, Err e)
    | Ok text =>
        if negb (str_contains marker text) then
          (mkdir_p (removelast target) ;; append_text target (block jdk_root)) t
        else (t, Ok tt)
    end.

(* ------------------------------------------------------------------ *)
(** ** [persist_env_windows_user] *)

(** The user-scope variable store written by [setx]. *)
Definition user_store := list (string * string).

(** [setx NAME value]: stores at most 1024 characters of [value]. *)
Definition setx (u : user_store) (name value : string) : user_store :=
  env_set u name (substring 0 1024 value).

(** Environment lookup of Windows: names compare case-insensitively. *)
Fixpoint env_get_ci (env : list (string * string)) (k : string) : option string :=
  match env with
  | [] => None
  | (k', v) :: env' =>
      if String.eqb (str_lower k) (str_lower k') then Some v else env_get_ci env' k
  end.

(** The value [%name%] stands for; the empty name is never defined. *)
Definition cmd_var (env : list (string * string)) (name : string) : option string :=
  if String.eqb name "" then None else env_get_ci env name.

(** The [%name%] expansion [cmd.exe] applies to the command line it runs.
    [pending] is [Some b] after an opening [%] followed by [b]. A defined
    [%name%] is replaced by its value, which is not scanned again. An
    undefined one is kept as it is, and in command-line mode scanning
    resumes just after its first [%], so its closing [%] may open the next
    name. The [:~] and [:=] modifiers, the dynamic variables ([CD], [DATE],
    ...) and [cmd.exe]'s operators and escapes are not modelled. *)
Fixpoint cmd_expand_aux (env : list (string * string)) (pending : option string)
         (s : string) : string :=
  match s with
  | EmptyString => match pending with None => "" | Some b => ("%" ++ b)%string end
  | String c s' =>
      if Ascii.eqb c "%" then
        match pending with
        | None => cmd_expand_aux env (Some "") s'
        | Some b =>
            match cmd_var env b with
            | Some v => (v ++ cmd_expand_aux env None s')%string
            | None => ("%" ++ b ++ cmd_expand_aux env (Some "") s')%string
            end
        end
      else
        match pending with
        | None => String c (cmd_expand_aux env None s')
        | Some b => cmd_expand_aux env (Some (b ++ String c "")%string) s'
        end
  end.

Definition cmd_expand (env : list (string * string)) (s : string) : string :=
  cmd_expand_aux env None s.

(** [persist_env_windows_user(jdk_root)]: both [setx] calls run with
    [check=False], so their exit status is ignored and nothing raises.
    [jdk_root] is [str(jdk_root)], [env] is [os.environ]. With
    [shell=True] each command line goes through [cmd.exe /c], which
    expands [%name%] in it before [setx] sees its arguments (the words
    [setx JAVA_HOME] and [setx PATH] hold no [%]). *)
Definition persist_env_windows_user (env : list (string * string))
           (jdk_root : string) (u : user_store) : user_store :=
  let u1 := setx u "JAVA_HOME" (cmd_expand env jdk_root) in
  setx u1 "PATH" (cmd_expand env ("%JAVA_HOME%\bin;" ++ env_get env "PATH" "")).


(* ------------------------------------------------------------------ *)
(** ** [normalize_os_arch], [get_latest_zulu], [extract_archive] *)

(** [normalize_os_arch()] on [platform.system()] and [platform.machine()]. *)
Definition normalize_os_arch (system machine : string) : res (string * string) :=
  let sys := str_lower system in
  let mach := str_lower machine in
  let os_name :=
    if str_contains "windows" sys then Ok "windows"
    else if str_contains "linux" sys then Ok "linux"
    else if str_contains "darwin" sys || str_contains "mac" sys then Ok "macos"
    else Err (mk_exc "ValueError" ("Unsupported OS: " ++ sys)) in
  match os_name with
  | Err e => Err e
  | Ok o =>
      if String.eqb mach "x86_64" || String.eqb mach "amd64" then Ok (o, "x86_64")
      else if String.eqb mach "aarch64" || String.eqb mach "arm64"
      then Ok (o, "aarch64")
      else Err (mk_exc "ValueError" ("Unsupported architecture: " ++ mach))
  end.

(** A package record of the metadata service. *)
Record pkg := mkPkg { pkg_name : string; pkg_download_url : string }.

(** [pick(suffix)]: the first package, in response order, whose lowered
    name does not contain ["-crac-"] and ends with one of [suffix]. *)
Fixpoint pick (suffix : list string) (data : list pkg) : option (string * string) :=
  match data with
  | [] => None
  | p :: data' =>
      let name := str_lower (pkg_name p) in
      if str_contains "-crac-" name then pick suffix data'
      else if existsb (fun suf => str_endswith name suf) suffix
      then Some (pkg_download_url p, pkg_name p)
      else pick suffix data'
  end.

Definition py_or {A} (x y : option A) : option A :=
  match x with Some _ => x | None => y end.

(** [get_latest_zulu(java_major, os_name, arch)]: [resp] is the answer of
    the metadata service to the query built from the parameters ([Err]
    when [raise_for_status] raises); [system] and [machine] are the
    platform strings used when [os_name] or [arch] is missing. *)
Definition get_latest_zulu (os_name arch : option string)
           (system machine : string) (resp : res (list pkg))
  : res (string * string) :=
  let oa :=
    match os_name, arch with
    | Some o, Some a =>
        if String.eqb o "" || String.eqb a "" then normalize_os_arch system machine
        else Ok (o, a)
    | _, _ => normalize_os_arch system machine
    end in
  match oa with
  | Err e => Err e
  | Ok (o, _) =>
      match resp with
      | Err e => Err e
      | Ok [] => Err (mk_exc "ValueError" "No matching Zulu JDK found.")
      | Ok data =>
          let found :=
            if String.eqb o "windows" then py_or (pick [".msi"] data) (pick [".zip"] data)
            else if String.eqb o "macos"
            then py_or (pick [".tar.gz"; ".tgz"] data) (pick [".zip"] data)
            else py_or (pick [".tar.gz"; ".tgz"] data) (pick [".zip"] data) in
          match found with
          | None => Err (mk_exc "ValueError"
                          "No suitable package found for the specified OS and architecture.")
          | Some f => Ok f
          end
      end
  end.

Inductive archive_format := Zip | TarGz.

(** [extract_archive(archive_path, extract_to)]; [unpack] stands for
    [zipfile]/[tarfile] extraction. *)
Definition extract_archive
           (unpack : archive_format -> string -> path -> ST fs unit)
           (archive_path : string) (extract_to : path) : ST fs unit :=
  if str_endswith archive_path ".zip" then unpack Zip archive_path extract_to
  else if str_endswith archive_path ".tar.gz" || str_endswith archive_path ".tgz"
  then unpack TarGz archive_path extract_to
  else raise (mk_exc "ValueError" "Unsupported archive format.").

(* ------------------------------------------------------------------ *)
(** ** [setup_java] *)

(** The state a run of [setup_java] acts on: the filesystem, the
    Windows user-scope variables, and the scratch directories created
    by [tempfile.mkdtemp] and removed by [shutil.rmtree], in order. *)
Record st := mkSt {
  st_fs : fs;
  st_user : user_store;
  st_created : list path;
  st_removed : list path
}.

Definition on_fs {A} (m : ST fs A) : ST st A :=
  fun s => let (t', r) := m (st_fs s) in
           (mkSt t' (st_user s) (st_created s) (st_removed s), r).

Fixpoint digits (fuel n : nat) (acc : string) : string :=
  match fuel with
  | 0 => acc
  | S f =>
      let acc' := String (ascii_of_nat (48 + n mod 10)) acc in
      if Nat.ltb n 10 then acc' else digits f (n / 10) acc'
  end.

Definition string_of_nat (n : nat) : string := digits (S n) n "".

(** The first name [/tmp/tmp<k>] that does not exist. *)
Fixpoint fresh_tmp (fuel k : nat) (t : fs) : path :=
  let p := ["tmp"; String.append "tmp" (string_of_nat k)] in
  match fuel with
  | 0 => p
  | S f => if path_exists p t then fresh_tmp f (S k) t else p
  end.

(** [tempfile.mkdtemp()]: creates a fresh directory under [/tmp]. *)
Definition mkdtemp : ST st path :=
  fun s =>
    let t := st_fs s in
    let p := fresh_tmp (S (List.length t)) 0 t in
    if is_dir ["tmp"] t
    then (mkSt (t ++ [(p, EDir)]) (st_user s) (st_created s ++ [p]) (st_removed s),
          Ok p)
    else (s, Err (mk_exc "FileNotFoundError" "/tmp")).

(** [shutil.rmtree(p, ignore_errors=True)]. *)
Definition rmtree_st (p : path) : ST st unit :=
  fun s => (mkSt (rmtree p (st_fs s)) (st_user s) (st_created s)
                 (st_removed s ++ [p]), Ok tt).

Definition on_user (f : user_store -> user_store) : ST st unit :=
  fun s => (mkSt (st_fs s) (f (st_user s)) (st_created s) (st_removed s), Ok tt).

(** The dictionary returned by [setup_java]; the ["existing"] result has
    no ["os"] and ["arch"] keys ([None] here). *)
Record result := mkResult {
  java_bin : string;
  jdk_root : option string;
  mode : string;
  r_os : option string;
  r_arch : option string
}.

(** The host as [setup_java] sees it. *)
Record host := mkHost {
  h_java_ok : bool;                      (* ensure_java_installed() *)
  h_system : string;                     (* platform.system() *)
  h_machine : string;                    (* platform.machine() *)
  h_root : bool;                         (* _is_root_unix() *)
  h_home : path;                         (* Path.home() *)
  h_environ : list (string * string);    (* os.environ *)
  h_resp : res (list pkg)                (* the metadata service's answer *)
}.

Section Orchestrator.

(** The I/O collaborators: [download_file(url, dest)], the archive
    extraction of [zipfile]/[tarfile], and [install_zulu_msi(path)]
    (an [msiexec] run with [check=True]). *)
Variable download_file : string -> path -> ST fs unit.
Variable unpack : archive_format -> string -> path -> ST fs unit.
Variable install_zulu_msi : path -> ST fs unit.

(** Lines 213-220 of [setup_java]: choose the base, unpack into a second
    scratch directory, relocate, and always remove that directory. *)
Definition relocate_step (h : host) (os_name : string) (file_path : path)
  : ST st path :=
  base <- of_res (choose_permanent_base os_name (h_root h) (h_home h) (h_environ h)) ;;
  tmp_extract <- mkdtemp ;;
  try_finally
    (on_fs (extract_archive unpack (str_path file_path) tmp_extract) ;;
     on_fs (move_extracted_to_base tmp_extract base))
    (rmtree_st tmp_extract).

(** Lines 222-228 of [setup_java]: environment integration. *)
Definition integrate_step (h : host) (os_name : string) (jdk_root : path)
  : ST st (string * option path * string) :=
  if String.eqb os_name "windows" then
    on_user (persist_env_windows_user (h_environ h) (str_path jdk_root)) ;;
    ret (str_path (jdk_root ++ ["bin"; "java.exe"]), Some jdk_root, "portable")
  else
    on_fs (persist_env_posix (h_environ h) (h_home h) jdk_root) ;;
    ret (str_path (jdk_root ++ ["bin"; "java"]), Some jdk_root, "portable").

(** The [else] branch of [setup_java]. *)
Definition archive_path (h : host) (os_name : string) (file_path : path)
  : ST st (string * option path * string) :=
  jdk_root <- relocate_step h os_name file_path ;;
  integrate_step h os_name jdk_root.

(** The body of the outer [try] of [setup_java]. *)
Definition install_body (h : host) (os_name url fname : string) (tmpdir : path)
  : ST st (string * option path * string) :=
  let file_path := tmpdir ++ [fname] in
  on_fs (download_file url file_path) ;;
  if String.eqb os_name "windows" && str_endswith (str_lower fname) ".msi" then
    on_fs (install_zulu_msi file_path) ;;
    ret ("java", None, "msi")
  else archive_path h os_name file_path.

(** [setup_java(java_major)]; the final [java -version] check is inside
    [try/except Exception] and only prints, so it has no effect here. *)
Definition setup_java (h : host) : ST st result :=
  if h_java_ok h then ret (mkResult "java" None "existing" None None)
  else
    '(os_name, arch) <- of_res (normalize_os_arch (h_system h) (h_machine h)) ;;
    '(url, fname) <- of_res (get_latest_zulu (Some os_name) (Some arch)
                                              (h_system h) (h_machine h) (h_resp h)) ;;
    tmpdir <- mkdtemp ;;
    '(jb, jr, m) <- try_finally (install_body h os_name url fname tmpdir)
                                (rmtree_st tmpdir) ;;
    ret (mkResult jb (option_map str_path jr) m (Some os_name) (Some arch)).

End Orchestrator.

(* ------------------------------------------------------------------ *)
(** ** The I/O helpers: [download_file], [install_zulu_msi],
    [ensure_java_installed], [_is_root_unix] *)

(** [open(p, "wb")]: creates [p], or empties it when it is a file. *)
Definition open_wb (p : path) : ST fs unit :=
  fun t =>
    match kind p t with
    | Some EDir => (t, Err (mk_exc "IsADirectoryError" (str_path p)))
    | Some (EFile _) => (set_entry p (EFile "") t, Ok tt)
    | None =>
        match kind (removelast p) t with
        | Some EDir => (t ++ [(p, EFile "")], Ok tt)
        | Some (EFile _) => (t, Err (mk_exc "NotADirectoryError" (str_path p)))
        | None => (t, Err (mk_exc "FileNotFoundError" (str_path p)))
        end
    end.

(** [for chunk in r.iter_content(chunk_size=8192): f.write(chunk)]: an
    [Err] is an exception raised while reading the stream. *)
Fixpoint write_chunks (p : path) (chunks : list (res string)) : ST fs unit :=
  match chunks with
  | [] => ret tt
  | Ok c :: cs => append_text p c ;; write_chunks p cs
  | Err e :: _ => raise e
  end.

(** [download_file(url, dest)]: [net url] is what [requests.get(url,
    stream=True)] delivers: [Err] when the request or [raise_for_status]
    raises, otherwise the stream of chunks.  The file is opened only after
    [raise_for_status]. *)
Definition download_file (net : string -> res (list (res string)))
           (url : string) (dest : path) : ST fs unit :=
  match net url with
  | Err e => raise e
  | Ok chunks => open_wb dest ;; write_chunks dest chunks
  end.

(** [install_zulu_msi(msi_path)]: [msiexec] runs the installer on the
    file and gives the new filesystem and its exit status; with
    [check=True] a non-zero status raises [CalledProcessError]. *)
Definition install_zulu_msi (msiexec : path -> fs -> fs * nat) (msi_path : path)
  : ST fs unit :=
  fun t =>
    let (t', rc) := msiexec msi_path t in
    if Nat.eqb rc 0 then (t', Ok tt)
    else (t', Err (mk_exc "CalledProcessError"
                    ("Command returned non-zero exit status " ++ string_of_nat rc ++ "."))).

(** [ensure_java_installed()]: [run] is the outcome of
    [subprocess.run(["java", "-version"])], its return code or the
    exception it raises; only [FileNotFoundError] is caught. *)
Definition ensure_java_installed (run : res nat) : res bool :=
  match run with
  | Ok rc => Ok (Nat.eqb rc 0)
  | Err e => if String.eqb (exc_class e) "FileNotFoundError" then Ok false else Err e
  end.

(** [_is_root_unix()]: [geteuid] is the outcome of [os.geteuid()]; only
    [AttributeError] is caught. *)
Definition is_root_unix (geteuid : res nat) : res bool :=
  match geteuid with
  | Ok uid => Ok (Nat.eqb uid 0)
  | Err e => if String.eqb (exc_class e) "AttributeError" then Ok false else Err e
  end.

(* ------------------------------------------------------------------ *)
(** ** The Metadata Resolver as the specification words it *)

(** The candidate survives the checkpoint/restore filter. *)
Definition spec_not_crac (p : pkg) : bool :=
  negb (str_contains "-crac-" (str_lower (pkg_name p))).

(** The candidate has one of the packaging formats [sufs]. *)
Definition spec_has_format (sufs : list string) (p : pkg) : bool :=
  existsb (fun suf => str_endswith (str_lower (pkg_name p)) suf) sufs.

(** The fixed per-OS preference order of packaging formats. *)
Definition spec_preference (os_name : string) : list (list string) :=
  if String.eqb os_name "windows" then [[".msi"]; [".zip"]]
  else [[".tar.gz"; ".tgz"]; [".zip"]].

(** The first surviving candidate of the most preferred format present,
    ties broken by the service's order. *)
Fixpoint spec_first_in_order (tiers : list (list string)) (surv : list pkg)
  : option pkg :=
  match tiers with
  | [] => None
  | sufs :: tiers' =>
      match find (spec_has_format sufs) surv with
      | Some p => Some p
      | None => spec_first_in_order tiers' surv
      end
  end.

Definition spec_select (os_name : string) (data : list pkg) : option pkg :=
  spec_first_in_order (spec_preference os_name) (filter spec_not_crac data).

(* ------------------------------------------------------------------ *)
(** ** Concrete collaborators and hosts used by the examples *)

(** [download_file] that stores the URL as the file's contents. *)
Definition demo_download (url : string) (p : path) : ST fs unit :=
  fun t => (t ++ [(p, EFile url)], Ok tt).

(** An archive whose single top-level directory is [zulu21-ca-jdk-linux_x64]. *)
Definition demo_unpack (f : archive_format) (a : string) (d : path) : ST fs unit :=
  fun t =>
    (t ++ [(d ++ ["zulu21-ca-jdk-linux_x64"], EDir);
           (d ++ ["zulu21-ca-jdk-linux_x64"; "bin"], EDir);
           (d ++ ["zulu21-ca-jdk-linux_x64"; "bin"; "java"], EFile "ELF")], Ok tt).

(** An [msiexec] run that exits with status 0. *)
Definition demo_msi (p : path) : ST fs unit := fun t => (t, Ok tt).

Definition demo_home : path := ["home"; "u"].

Definition demo_fs : fs := [(["tmp"], EDir); (["home"], EDir); (demo_home, EDir)].

(** Scenario A: Linux x86_64, unprivileged, no java on PATH, one tarball. *)
Definition host_linux : host :=
  mkHost false "Linux" "x86_64" false demo_home
         [("SHELL", "/bin/bash"); ("PATH", "/usr/bin")]
         (Ok [mkPkg "zulu21.30.15-ca-jdk21.0.1-linux_x64.tar.gz"
                    "https://cdn.azul.com/zulu/bin/zulu21-linux_x64.tar.gz"]).

(** Scenario C: Windows, the service returns only an [.msi] record. *)
Definition host_windows_msi : host :=
  mkHost false "Windows" "AMD64" false demo_home [("PATH", "C:\Windows")]
         (Ok [mkPkg "zulu21.30.15-ca-jdk21.0.1-win_x64.msi"
                    "https://cdn.azul.com/zulu/bin/zulu21-win_x64.msi"]).

(** A home directory whose [.bashrc] is a directory: [read_text] fails. *)
Definition fs_bashrc_dir : fs :=
  demo_fs ++ [(demo_home ++ [".bashrc"], EDir)].

(** Scenario D: a scratch directory holding two top-level directories,
    and the per-user base directory of Linux. *)
Definition demo_tmp : path := ["tmp"; "x"].

Definition demo_base : path := demo_home ++ [".local"; "share"; "java"].

Definition fs_two_dirs : fs :=
  demo_fs ++ [(demo_tmp, EDir); (demo_tmp ++ ["jdkA"], EDir);
              (demo_tmp ++ ["jdkA"; "bin"], EDir); (demo_tmp ++ ["jdkB"], EDir)].

(** The same, after an earlier run installed [jdkA] into the base. *)
Definition fs_two_dirs_reused : fs :=
  fs_two_dirs ++ [(demo_home ++ [".local"], EDir);
                  (demo_home ++ [".local"; "share"], EDir);
                  (demo_base, EDir); (demo_base ++ ["jdkA"], EDir)].

(** Scenario E: as scenario A, but the only package has an upper-case
    extension. *)
Definition host_upper_ext : host :=
  mkHost false "Linux" "x86_64" false demo_home [("SHELL", "/bin/bash")]
         (Ok [mkPkg "zulu21.30.15-ca-jdk21.0.1-linux_x64.TAR.GZ"
                    "https://cdn.azul.com/zulu/bin/zulu21-linux_x64.TAR.GZ"]).

(** A runtime root in the base directory. *)
Definition demo_jdk : path := demo_base ++ ["zulu21-ca-jdk-linux_x64"].

(** A [.bashrc] that already holds two managed blocks. *)
Definition fs_two_blocks : fs :=
  demo_fs ++ [(demo_home ++ [".bashrc"], EFile (block demo_jdk ++ block demo_jdk))].



(* ================================================================== *)
(** * Properties *)

(* ------------------------------------------------------------------ *)
(** ** Placement Resolver *)

(** C1 (code defect): on Windows [choose_permanent_base] does not return
    a path: it reads [os.eniron], which raises [AttributeError], whatever
    the elevation status, home directory and environment. *)
Theorem choose_permanent_base_windows_raises :
  forall is_root home env,
    choose_permanent_base "windows" is_root home env =
    Err (mk_exc "AttributeError" "module 'os' has no attribute 'eniron'").
Proof. intros. reflexivity. Qed.

(** On Linux and macOS the base is the row of the policy table. *)
Lemma choose_permanent_base_posix :
  forall is_root home env,
    choose_permanent_base "linux" is_root home env =
      Ok (if is_root then ["usr"; "local"; "lib"; "jvm"]
          else home ++ [".local"; "share"; "java"]) /\
    choose_permanent_base "macos" is_root home env =
      Ok (if is_root then ["Library"; "Java"; "JavaVirtualMachines"]
          else home ++ ["Library"; "Java"; "JavaVirtualMachines"]).
Proof. intros. split; reflexivity. Qed.

(* ------------------------------------------------------------------ *)
(** ** Metadata Resolver *)

Lemma pick_filter_find :
  forall sufs data,
    pick sufs data =
    option_map (fun p => (pkg_download_url p, pkg_name p))
               (find (spec_has_format sufs) (filter spec_not_crac data)).
Proof.
  intros sufs data. induction data as [|p data IH]; [reflexivity|].
  simpl. unfold spec_not_crac at 1.
  destruct (str_contains "-crac-" (str_lower (pkg_name p))); simpl.
  - exact IH.
  - unfold spec_has_format at 1.
    destruct (existsb _ sufs); [reflexivity | exact IH].
Qed.

(** C7 (counterexample): a query whose only candidate is a
    checkpoint/restore build fails, but with [ValueError], not
    [NotFoundError]. *)
Example get_latest_zulu_crac_only_valueerror :
  get_latest_zulu (Some "linux") (Some "x86_64") "Linux" "x86_64"
    (Ok [mkPkg "zulu21.30.15-ca-crac-jdk21.0.1-linux_x64.tar.gz" "https://cdn/crac.tar.gz"]) =
  Err (mk_exc "ValueError"
         "No suitable package found for the specified OS and architecture.") /\
  exc_class (mk_exc "ValueError" "") <> "NotFoundError".
Proof. split; [reflexivity | discriminate]. Qed.

(** C7 (amended): [get_latest_zulu] drops every candidate whose lowered
    name contains ["-crac-"], returns the first survivor of the most
    preferred format of [spec_preference] (service order within a
    format), and raises [ValueError] when the answer is empty or no
    survivor has a preferred format. *)
Theorem get_latest_zulu_refines_spec :
  forall os_name arch system machine data,
    String.eqb os_name "" = false -> String.eqb arch "" = false ->
    get_latest_zulu (Some os_name) (Some arch) system machine (Ok data) =
    match data with
    | [] => Err (mk_exc "ValueError" "No matching Zulu JDK found.")
    | _ =>
        match spec_select os_name data with
        | Some p => Ok (pkg_download_url p, pkg_name p)
        | None => Err (mk_exc "ValueError"
                    "No suitable package found for the specified OS and architecture.")
        end
    end.
Proof.
  intros os_name arch system machine data Ho Ha.
  unfold get_latest_zulu. rewrite Ho, Ha. cbn [orb].
  destruct data as [|p0 data0]; [reflexivity|].
  unfold spec_select, spec_preference.
  rewrite !pick_filter_find.
  set (surv := filter spec_not_crac (p0 :: data0)).
  destruct (String.eqb os_name "windows");
  [| destruct (String.eqb os_name "macos")];
  cbn [spec_first_in_order];
  repeat match goal with
         | |- context [find ?f surv] => destruct (find f surv)
         end; reflexivity.
Qed.

Lemma get_latest_zulu_refines_spec_witness :
  String.eqb "linux" "" = false /\ String.eqb "x86_64" "" = false /\
  get_latest_zulu (Some "linux") (Some "x86_64") "Linux" "x86_64"
    (Ok [mkPkg "zulu21-ca-crac-jdk-linux_x64.tar.gz" "u0";
         mkPkg "zulu21-ca-jdk-linux_x64.zip" "u1";
         mkPkg "zulu21-ca-jdk-linux_x64.tar.gz" "u2"]) =
  Ok ("u2", "zulu21-ca-jdk-linux_x64.tar.gz").
Proof.
  split; [reflexivity | split; [reflexivity |]].
  rewrite (get_latest_zulu_refines_spec "linux" "x86_64" "Linux" "x86_64"
             _ eq_refl eq_refl).
  reflexivity.
Defined.

(* ------------------------------------------------------------------ *)
(** ** Relocator: empty extraction *)

Lemma filter_all_false :
  forall {A} (f : A -> bool) l,
    (forall x, In x l -> f x = false) -> filter f l = [].
Proof.
  intros A f l H. induction l as [|x l IH]; [reflexivity|].
  simpl. rewrite (H x (or_introl eq_refl)). apply IH.
  intros y Hy. apply H. right. exact Hy.
Qed.

(** C8 (counterexample): a scratch directory holding only a file makes
    [move_extracted_to_base] raise [RuntimeError], not
    [ExtractionEmptyError]. *)
Example move_extracted_empty_is_runtime_error :
  let t := demo_fs ++ [(["tmp"; "x"], EDir); (["tmp"; "x"; "README"], EFile "")] in
  move_extracted_to_base ["tmp"; "x"] (demo_home ++ [".local"; "share"; "java"]) t =
  (t, Err (mk_exc "RuntimeError" "Extraction failed, no contents found.")) /\
  "RuntimeError" <> "ExtractionEmptyError".
Proof. split; [reflexivity | discriminate]. Qed.

(** C8 (amended): when the scratch directory has no subdirectory,
    [move_extracted_to_base] raises [RuntimeError("Extraction failed, no
    contents found.")] and returns the filesystem unchanged: the base
    directory is not created. *)
Theorem move_extracted_no_subdir_raises :
  forall tmp base t,
    is_dir tmp t = true ->
    (forall q, In q (children tmp t) -> is_dir q t = false) ->
    move_extracted_to_base tmp base t =
    (t, Err (mk_exc "RuntimeError" "Extraction failed, no contents found.")).
Proof.
  intros tmp base t Hd Hnone. unfold move_extracted_to_base, iterdir.
  unfold is_dir in Hd.
  destruct (kind tmp t) as [[|c]|]; try discriminate.
  rewrite (filter_all_false _ _ Hnone). reflexivity.
Qed.

Lemma move_extracted_no_subdir_raises_witness :
  let t := demo_fs ++ [(["tmp"; "x"], EDir); (["tmp"; "x"; "README"], EFile "")] in
  move_extracted_to_base ["tmp"; "x"] ["opt"; "jvm"] t =
  (t, Err (mk_exc "RuntimeError" "Extraction failed, no contents found.")).
Proof.
  intro t. apply move_extracted_no_subdir_raises.
  - reflexivity.
  - intros q Hq. vm_compute in Hq. destruct Hq as [<- | []]. reflexivity.
Defined.

(* ------------------------------------------------------------------ *)
(** ** Orchestrator: concrete runs *)

(** C4 (counterexample): scenario C, Windows with only an [.msi] record:
    the run succeeds and reports mode ["msi"], which is not one of
    ["existing"], ["native_installer"], ["portable"]. *)
Example setup_java_windows_msi_mode :
  snd (setup_java demo_download demo_unpack demo_msi host_windows_msi
                  (mkSt demo_fs [] [] [])) =
  Ok (mkResult "java" None "msi" (Some "windows") (Some "x86_64")) /\
  ~ In "msi" ["existing"; "native_installer"; "portable"].
Proof.
  split; [vm_compute; reflexivity |].
  simpl. intros [H | [H | [H | []]]]; discriminate.
Qed.

(** C2 (counterexample): scenario A with [~/.bashrc] a directory: the
    installation is in place, [persist_env_posix] raises
    [IsADirectoryError], and [setup_java] raises it instead of returning
    a result. *)
Example setup_java_persist_failure_aborts :
  snd (setup_java demo_download demo_unpack demo_msi host_linux
                  (mkSt fs_bashrc_dir [] [] [])) =
  Err (mk_exc "IsADirectoryError" "/home/u/.bashrc") /\
  lookup (demo_home ++ [".local"; "share"; "java"; "zulu21-ca-jdk-linux_x64"; "bin"; "java"])
    (st_fs (fst (setup_java demo_download demo_unpack demo_msi host_linux
                            (mkSt fs_bashrc_dir [] [] [])))) = Some (EFile "ELF").
Proof. split; vm_compute; reflexivity. Qed.

(* ------------------------------------------------------------------ *)
(** ** Inversion lemmas for the monad *)

Lemma bind_ok_inv {S A B} (m : ST S A) (k : A -> ST S B) s s' b :
  bind m k s = (s', Ok b) -> exists s1 a, m s = (s1, Ok a) /\ k a s1 = (s', Ok b).
Proof.
  unfold bind. destruct (m s) as [s1 [a|e]]; intro H; [eauto | discriminate].
Qed.

Lemma try_finally_ok_inv {S A} (m : ST S A) f s s' a :
  try_finally m f s = (s', Ok a) -> exists s1, m s = (s1, Ok a).
Proof.
  unfold try_finally. destruct (m s) as [s1 r].
  destruct (f s1) as [s2 [u|e]]; intro H; inversion H; subst; eauto.
Qed.

Lemma ret_ok_inv {S A} (a b : A) (s s' : S) :
  ret a s = (s', Ok b) -> a = b /\ s = s'.
Proof. unfold ret. intro H. inversion H. auto. Qed.

Lemma of_res_ok_inv {S A} (r : res A) (a : A) (s s' : S) :
  of_res r s = (s', Ok a) -> r = Ok a /\ s = s'.
Proof. unfold of_res. intro H. inversion H. auto. Qed.

(* ------------------------------------------------------------------ *)
(** ** Orchestrator: reported mode *)

Lemma install_body_modes :
  forall dl up msi h os_name url fname tmpdir s s' jb jr m,
    install_body dl up msi h os_name url fname tmpdir s = (s', Ok (jb, jr, m)) ->
    (m = "msi" /\ jr = None /\
     String.eqb os_name "windows" && str_endswith (str_lower fname) ".msi" = true) \/
    (m = "portable" /\ jr <> None /\
     String.eqb os_name "windows" && str_endswith (str_lower fname) ".msi" = false).
Proof.
  intros dl up msi h os_name url fname tmpdir s s' jb jr m H.
  unfold install_body in H. apply bind_ok_inv in H as (s1 & u & _ & H).
  destruct (String.eqb os_name "windows" && str_endswith (str_lower fname) ".msi")
    eqn:Hb.
  - apply bind_ok_inv in H as (s2 & u2 & _ & H).
    apply ret_ok_inv in H as [Heq _]. inversion Heq; subst. left. auto.
  - unfold archive_path in H. apply bind_ok_inv in H as (s2 & jr0 & _ & H).
    unfold integrate_step in H.
    destruct (String.eqb os_name "windows");
      apply bind_ok_inv in H as (s3 & u3 & _ & H);
      apply ret_ok_inv in H as [Heq _]; inversion Heq; subst;
      right; repeat split; try discriminate; reflexivity.
Qed.

(** C4 (amended): a successful run of [setup_java] reports mode
    ["existing"] (no runtime root), ["msi"] (no runtime root) or
    ["portable"] (with a runtime root); on the Windows native-installer
    path (Windows, package name ending in [.msi]) a successful run
    reports mode ["msi"] and a [None] runtime root. *)
Theorem setup_java_modes :
  forall dl up msi h s s' r,
    setup_java dl up msi h s = (s', Ok r) ->
    ((mode r = "existing" /\ jdk_root r = None) \/
     (mode r = "msi" /\ jdk_root r = None) \/
     (mode r = "portable" /\ jdk_root r <> None)) /\
    (forall arch url fname,
       normalize_os_arch (h_system h) (h_machine h) = Ok ("windows", arch) ->
       get_latest_zulu (Some "windows") (Some arch) (h_system h) (h_machine h)
                       (h_resp h) = Ok (url, fname) ->
       str_endswith (str_lower fname) ".msi" = true ->
       h_java_ok h = false ->
       mode r = "msi" /\ jdk_root r = None).
Proof.
  intros dl up msi h s s' r H. unfold setup_java in H.
  destruct (h_java_ok h) eqn:Hj.
  - apply ret_ok_inv in H as [Heq _]. subst r.
    split; [left; auto | intros; congruence].
  - apply bind_ok_inv in H as (s1 & [os_name arch] & Hn & H). cbv beta iota in H.
    apply of_res_ok_inv in Hn as [Hn _].
    apply bind_ok_inv in H as (s2 & [url fname] & Hg & H). cbv beta iota in H.
    apply of_res_ok_inv in Hg as [Hg _].
    apply bind_ok_inv in H as (s3 & tmpdir & _ & H).
    apply bind_ok_inv in H as (s4 & [[jb jr] m] & Hb & H). cbv beta iota in H.
    apply ret_ok_inv in H as [Heq _]. subst r.
    apply try_finally_ok_inv in Hb as (s5 & Hb).
    apply install_body_modes in Hb. cbn [mode jdk_root].
    split.
    + destruct Hb as [(-> & -> & _) | (-> & Hjr & _)].
      * right; left; auto.
      * right; right; split; [reflexivity|].
        destruct jr; [discriminate | contradiction].
    + intros arch' url' fname' Hn' Hg' Hm _.
      rewrite Hn' in Hn. inversion Hn; subst.
      rewrite Hg' in Hg. inversion Hg; subst.
      destruct Hb as [(-> & -> & _) | (_ & _ & Hb)]; [auto|].
      rewrite String.eqb_refl, Hm in Hb. discriminate.
Qed.

Lemma setup_java_modes_witness :
  setup_java demo_download demo_unpack demo_msi host_windows_msi (mkSt demo_fs [] [] []) =
  (fst (setup_java demo_download demo_unpack demo_msi host_windows_msi
                   (mkSt demo_fs [] [] [])),
   Ok (mkResult "java" None "msi" (Some "windows") (Some "x86_64"))) /\
  mode (mkResult "java" None "msi" (Some "windows") (Some "x86_64")) = "msi" /\
  jdk_root (mkResult "java" None "msi" (Some "windows") (Some "x86_64")) = None.
Proof.
  assert (H : setup_java demo_download demo_unpack demo_msi host_windows_msi
                (mkSt demo_fs [] [] []) =
              (fst (setup_java demo_download demo_unpack demo_msi host_windows_msi
                   (mkSt demo_fs [] [] [])),
               Ok (mkResult "java" None "msi" (Some "windows") (Some "x86_64"))))
    by (vm_compute; reflexivity).
  split; [exact H |].
  apply (proj2 (setup_java_modes _ _ _ _ _ _ _ H) "x86_64"
           "https://cdn.azul.com/zulu/bin/zulu21-win_x64.msi"
           "zulu21.30.15-ca-jdk21.0.1-win_x64.msi");
    vm_compute; reflexivity.
Defined.

(* ------------------------------------------------------------------ *)
(** ** Orchestrator: environment-integration failures *)

(** C2 (amended): on Linux and macOS, a run that has downloaded,
    unpacked and relocated the runtime and then fails to persist the
    environment ([persist_env_posix] raises [e]) is aborted: after the
    download scratch directory is removed, [setup_java] raises [e] and
    returns no result (the result has no [env_integrated] flag).  On
    Windows the [setx] calls run with [check=False]: integration never
    raises. *)
Theorem setup_java_persist_error_propagates :
  (forall dl up msi h os_name arch url fname s s1 tmpdir t2 s3 jr t4 e,
     h_java_ok h = false ->
     normalize_os_arch (h_system h) (h_machine h) = Ok (os_name, arch) ->
     get_latest_zulu (Some os_name) (Some arch) (h_system h) (h_machine h)
                     (h_resp h) = Ok (url, fname) ->
     String.eqb os_name "windows" = false ->
     mkdtemp s = (s1, Ok tmpdir) ->
     dl url (tmpdir ++ [fname]) (st_fs s1) = (t2, Ok tt) ->
     relocate_step up h os_name (tmpdir ++ [fname])
                   (mkSt t2 (st_user s1) (st_created s1) (st_removed s1)) = (s3, Ok jr) ->
     persist_env_posix (h_environ h) (h_home h) jr (st_fs s3) = (t4, Err e) ->
     setup_java dl up msi h s =
     (mkSt (rmtree tmpdir t4) (st_user s3) (st_created s3) (st_removed s3 ++ [tmpdir]),
      Err e)) /\
  (forall h jr s, exists s' r, integrate_step h "windows" jr s = (s', Ok r)).
Proof.
  split.
  - intros dl up msi h os_name arch url fname s s1 tmpdir t2 s3 jr t4 e
           Hj Hn Hg Hw Ht Hd Hr Hp.
    unfold setup_java. rewrite Hj.
    unfold bind at 1, of_res at 1. rewrite Hn. cbv beta iota.
    unfold bind at 1, of_res at 1. rewrite Hg. cbv beta iota.
    unfold bind at 1. rewrite Ht. cbv beta iota.
    unfold bind at 1, try_finally at 1, install_body.
    unfold bind at 1, on_fs at 1. rewrite Hd. cbv beta iota.
    rewrite Hw. cbn [andb].
    unfold archive_path, bind at 1. rewrite Hr. cbv beta iota.
    unfold integrate_step. rewrite Hw.
    unfold bind at 1, on_fs at 1. rewrite Hp. cbv beta iota.
    unfold rmtree_st. reflexivity.
  - intros h jr s. unfold integrate_step, bind, on_user, ret. cbn.
    eexists. eexists. reflexivity.
Qed.

Lemma setup_java_persist_error_propagates_witness :
  snd (setup_java demo_download demo_unpack demo_msi host_linux
                  (mkSt fs_bashrc_dir [] [] [])) =
  Err (mk_exc "IsADirectoryError" "/home/u/.bashrc").
Proof.
  erewrite ((proj1 setup_java_persist_error_propagates)
             demo_download demo_unpack demo_msi host_linux "linux" "x86_64"
             "https://cdn.azul.com/zulu/bin/zulu21-linux_x64.tar.gz"
             "zulu21.30.15-ca-jdk21.0.1-linux_x64.tar.gz"
             (mkSt fs_bashrc_dir [] [] []));
    reflexivity.
Defined.

(* ------------------------------------------------------------------ *)
(** ** Orchestrator: scratch directories *)

Lemma path_eqb_true : forall p q, path_eqb p q = true <-> p = q.
Proof.
  intros p q. unfold path_eqb. destruct (list_eq_dec string_dec p q); split;
    congruence.
Qed.

Lemma path_eqb_refl : forall p, path_eqb p p = true.
Proof. intro p. apply path_eqb_true. reflexivity. Qed.

(** [shutil.rmtree(p)] leaves nothing under [p]. *)
Lemma rmtree_removes :
  forall p q t, path_prefix p q = true -> lookup q (rmtree p t) = None.
Proof.
  intros p q t Hpq. induction t as [|[k e] t IH]; [reflexivity|].
  simpl. destruct (path_prefix p k) eqn:Hk; simpl; [exact IH|].
  destruct (path_eqb q k) eqn:Hqk; [|exact IH].
  apply path_eqb_true in Hqk. subst. congruence.
Qed.

(** Every scratch directory created between [s] and [s'] has been
    removed by [s'], and removals are never forgotten. *)
Definition cleans (s s' : st) : Prop :=
  (forall d, In d (st_created s') -> In d (st_created s) \/ In d (st_removed s')) /\
  incl (st_removed s) (st_removed s').

Definition Cleans {A} (m : ST st A) : Prop := forall s, cleans s (fst (m s)).

Lemma cleans_refl : forall s, cleans s s.
Proof. intro s. split; [auto | apply incl_refl]. Qed.

Lemma cleans_trans : forall s1 s2 s3, cleans s1 s2 -> cleans s2 s3 -> cleans s1 s3.
Proof.
  intros s1 s2 s3 [C12 R12] [C23 R23]. split.
  - intros d Hd. destruct (C23 d Hd) as [H2 | H3]; [|auto].
    destruct (C12 d H2) as [H1 | H2']; [auto | right; apply R23; exact H2'].
  - eapply incl_tran; eauto.
Qed.

Lemma Cleans_ret : forall {A} (a : A), Cleans (ret a).
Proof. intros A a s. apply cleans_refl. Qed.

Lemma Cleans_of_res : forall {A} (r : res A), Cleans (of_res r).
Proof. intros A r s. apply cleans_refl. Qed.

Lemma Cleans_on_fs : forall {A} (m : ST fs A), Cleans (on_fs m).
Proof.
  intros A m s. unfold on_fs. destruct (m (st_fs s)).
  split; simpl; [auto | apply incl_refl].
Qed.

Lemma Cleans_on_user : forall f, Cleans (on_user f).
Proof. intros f s. split; simpl; [auto | apply incl_refl]. Qed.

Lemma Cleans_rmtree : forall p, Cleans (rmtree_st p).
Proof.
  intros p s. split; simpl; [auto | intros x Hx; apply in_or_app; auto].
Qed.

Lemma Cleans_bind :
  forall {A B} (m : ST st A) (k : A -> ST st B),
    Cleans m -> (forall a, Cleans (k a)) -> Cleans (bind m k).
Proof.
  intros A B m k Hm Hk s. unfold bind. specialize (Hm s).
  destruct (m s) as [s1 [a|e]]; simpl in *; [|exact Hm].
  eapply cleans_trans; [exact Hm | apply Hk].
Qed.

Lemma Cleans_try_finally :
  forall {A} (m : ST st A) f, Cleans m -> Cleans f -> Cleans (try_finally m f).
Proof.
  intros A m f Hm Hf s. unfold try_finally. specialize (Hm s).
  destruct (m s) as [s1 r]. specialize (Hf s1).
  destruct (f s1) as [s2 [u|e]]; simpl in *; eapply cleans_trans; eauto.
Qed.

Lemma mkdtemp_log :
  forall s s1 r, mkdtemp s = (s1, r) ->
    (exists p, r = Ok p /\ st_created s1 = st_created s ++ [p] /\
               st_removed s1 = st_removed s) \/ (s1 = s /\ exists e, r = Err e).
Proof.
  intros s s1 r H. unfold mkdtemp in H.
  destruct (is_dir ["tmp"] (st_fs s)); inversion H; subst; [left | right]; eauto.
Qed.

(** [d = mkdtemp(); try: ... finally: shutil.rmtree(d)] followed by
    more code: the scratch directory is removed on every path. *)
Lemma Cleans_scratch :
  forall {A B} (k : path -> ST st A) (g : path -> A -> ST st B),
    (forall p, Cleans (k p)) -> (forall p a, Cleans (g p a)) ->
    Cleans (bind mkdtemp (fun p => bind (try_finally (k p) (rmtree_st p)) (g p))).
Proof.
  intros A B k g Hk Hg s. unfold bind at 1.
  destruct (mkdtemp s) as [s1 r] eqn:E.
  destruct (mkdtemp_log _ _ _ E) as [(p & -> & Hc & Hr) | (-> & e & ->)];
    [| apply cleans_refl].
  assert (Hs1 : forall s', cleans s1 s' -> In p (st_removed s') -> cleans s s').
  { intros s' [C R] Hp. split.
    - intros d Hd. destruct (C d Hd) as [H1 | H1]; [|auto].
      rewrite Hc in H1. apply in_app_or in H1.
      destruct H1 as [H1 | [<- | []]]; auto.
    - rewrite <- Hr. exact R. }
  unfold bind, try_finally. specialize (Hk p s1).
  destruct (k p s1) as [s2 r2].
  assert (H3 : cleans s (mkSt (rmtree p (st_fs s2)) (st_user s2) (st_created s2)
                            (st_removed s2 ++ [p]))).
  { apply Hs1; [| simpl; apply in_or_app; right; left; reflexivity].
    eapply cleans_trans; [exact Hk | apply Cleans_rmtree]. }
  unfold rmtree_st. destruct r2 as [a|e]; simpl; [|exact H3].
  eapply cleans_trans; [exact H3 | apply Hg].
Qed.

Lemma Cleans_ext :
  forall {A} (m m' : ST st A), (forall s, m s = m' s) -> Cleans m -> Cleans m'.
Proof. intros A m m' E H s. rewrite <- E. apply H. Qed.

Lemma Cleans_relocate_step :
  forall up h os_name fp, Cleans (relocate_step up h os_name fp).
Proof.
  intros up h os_name fp. unfold relocate_step.
  apply Cleans_bind; [apply Cleans_of_res | intro base].
  eapply Cleans_ext;
    [| apply (Cleans_scratch
                (fun p => on_fs (extract_archive up (str_path fp) p) ;;
                          on_fs (move_extracted_to_base p base))
                (fun _ jr => ret jr))].
  - intro s. unfold bind. destruct (mkdtemp s) as [s1 [p|e]]; [|reflexivity].
    destruct (try_finally _ _ s1) as [s2 [x|e]]; reflexivity.
  - intro p. apply Cleans_bind; intros; apply Cleans_on_fs.
  - intros. apply Cleans_ret.
Qed.

Lemma Cleans_install_body :
  forall dl up msi h os_name url fname tmpdir,
    Cleans (install_body dl up msi h os_name url fname tmpdir).
Proof.
  intros. unfold install_body.
  apply Cleans_bind; [apply Cleans_on_fs | intros _].
  destruct (_ && _).
  - apply Cleans_bind; [apply Cleans_on_fs | intros; apply Cleans_ret].
  - unfold archive_path. apply Cleans_bind; [apply Cleans_relocate_step | intro jr].
    unfold integrate_step. destruct (String.eqb os_name "windows");
      (apply Cleans_bind; [apply Cleans_on_user || apply Cleans_on_fs
                          | intros; apply Cleans_ret]).
Qed.

Lemma Cleans_setup_java : forall dl up msi h, Cleans (setup_java dl up msi h).
Proof.
  intros. unfold setup_java. destruct (h_java_ok h); [apply Cleans_ret|].
  apply Cleans_bind; [apply Cleans_of_res | intros [os_name arch]].
  apply Cleans_bind; [apply Cleans_of_res | intros [url fname]].
  apply Cleans_scratch; [intro; apply Cleans_install_body |].
  intros p [[jb jr] m]. apply Cleans_ret.
Qed.

(** C9: on every exit path of [setup_java] (success, or an exception from
    the download, the installer, the choice of the base, the extraction,
    the relocation or the persistence), every scratch directory created
    by [tempfile.mkdtemp] during the run has been passed to
    [shutil.rmtree] by the end of the run. *)
Theorem setup_java_removes_scratch :
  forall dl up msi h t u,
    let s' := fst (setup_java dl up msi h (mkSt t u [] [])) in
    forall d, In d (st_created s') -> In d (st_removed s').
Proof.
  intros dl up msi h t u s' d Hd.
  destruct (Cleans_setup_java dl up msi h (mkSt t u [] [])) as [C _].
  destruct (C d Hd) as [[] | H]. exact H.
Qed.

Lemma setup_java_removes_scratch_witness :
  In ["tmp"; "tmp1"]
     (st_created (fst (setup_java demo_download demo_unpack demo_msi host_linux
                                  (mkSt demo_fs [] [] [])))) /\
  In ["tmp"; "tmp1"]
     (st_removed (fst (setup_java demo_download demo_unpack demo_msi host_linux
                                  (mkSt demo_fs [] [] [])))).
Proof.
  assert (H : In ["tmp"; "tmp1"]
                 (st_created (fst (setup_java demo_download demo_unpack demo_msi host_linux
                                              (mkSt demo_fs [] [] [])))))
    by (vm_compute; right; left; reflexivity).
  split; [exact H | exact (setup_java_removes_scratch _ _ _ _ _ _ _ H)].
Defined.

(* ------------------------------------------------------------------ *)
(** ** Filesystem lemmas *)

Lemma lookup_app :
  forall q a b, lookup q (a ++ b) =
                match lookup q a with Some e => Some e | None => lookup q b end.
Proof.
  intros q a b. induction a as [|[k e] a IH]; [reflexivity|].
  simpl. destruct (path_eqb q k); [reflexivity | exact IH].
Qed.

Lemma lookup_single :
  forall q p e, lookup q [(p, e)] = if path_eqb q p then Some e else None.
Proof. intros. reflexivity. Qed.

Lemma kind_snoc : forall p x t, kind (p ++ [x]) t = lookup (p ++ [x]) t.
Proof. intros [|a p] x t; reflexivity. Qed.

Lemma prefixes_nonempty : forall p q, In q (prefixes p) -> q <> [].
Proof.
  induction p as [|a p IH]; simpl; [tauto|].
  intros q [<- | Hq]; [discriminate|].
  apply in_map_iff in Hq. destruct Hq as (q' & <- & _). discriminate.
Qed.

Lemma prefixes_length : forall p q, In q (prefixes p) -> List.length q <= List.length p.
Proof.
  induction p as [|a p IH]; simpl; [tauto|].
  intros q [<- | Hq]; [simpl; lia|].
  apply in_map_iff in Hq. destruct Hq as (q' & <- & Hq'). simpl.
  specialize (IH q' Hq'). lia.
Qed.

Lemma prefixes_self : forall p, p <> [] -> In p (prefixes p).
Proof.
  induction p as [|a p IH]; [congruence|]. intros _. simpl.
  destruct p as [|b p]; [left; reflexivity|].
  right. apply in_map. apply IH. discriminate.
Qed.

Lemma prefixes_snoc : forall p x, prefixes (p ++ [x]) = prefixes p ++ [p ++ [x]].
Proof.
  induction p as [|a p IH]; intros x; [reflexivity|].
  simpl. rewrite IH, map_app. reflexivity.
Qed.

Lemma snoc_not_prefix :
  forall p x, ~ In (p ++ [x]) (prefixes p).
Proof.
  intros p x H. apply prefixes_length in H. rewrite length_app in H. simpl in H. lia.
Qed.

Definition mk_step (acc : fs) (q : path) : fs :=
  if path_exists q acc then acc else acc ++ [(q, EDir)].

Lemma mkdir_fold_eq :
  forall p t, fold_left (fun acc q => if path_exists q acc then acc
                                      else acc ++ [(q, EDir)]) (prefixes p) t =
              fold_left mk_step (prefixes p) t.
Proof. reflexivity. Qed.

Lemma mk_step_lookup :
  forall acc x q, lookup q acc <> None \/ q <> x -> lookup q (mk_step acc x) = lookup q acc.
Proof.
  intros acc x q H. unfold mk_step. destruct (path_exists x acc); [reflexivity|].
  rewrite lookup_app, lookup_single.
  destruct (lookup q acc) eqn:E; [reflexivity|].
  destruct (path_eqb q x) eqn:Eq; [|reflexivity].
  apply path_eqb_true in Eq. destruct H; congruence.
Qed.

Lemma fold_mk_step_lookup :
  forall L acc q, lookup q acc <> None \/ ~ In q L ->
    lookup q (fold_left mk_step L acc) = lookup q acc.
Proof.
  induction L as [|x L IH]; intros acc q H; [reflexivity|].
  simpl. rewrite IH.
  - apply mk_step_lookup. destruct H as [H|H]; [auto | right; intro; subst; apply H; left; auto].
  - destruct H as [H|H].
    + left. rewrite mk_step_lookup; auto.
    + right. intro; apply H; right; auto.
Qed.

Lemma fold_mk_step_dir :
  forall L acc,
    (forall q, In q L -> q <> [] /\ (lookup q acc = None \/ lookup q acc = Some EDir)) ->
    forall q, In q L -> lookup q (fold_left mk_step L acc) = Some EDir.
Proof.
  induction L as [|x L IH]; intros acc H q Hq; [destruct Hq|].
  simpl. assert (Hx : lookup x (mk_step acc x) = Some EDir).
  { unfold mk_step. destruct (H x (or_introl eq_refl)) as [Hne [Hn | Hd]].
    - unfold path_exists, kind. destruct x as [|a x]; [congruence|].
      rewrite Hn. rewrite lookup_app, Hn, lookup_single, path_eqb_refl. reflexivity.
    - unfold path_exists, kind. destruct x as [|a x]; [congruence|].
      rewrite Hd. exact Hd. }
  destruct (list_eq_dec string_dec q x) as [-> | Hqx].
  - rewrite fold_mk_step_lookup; [exact Hx | left; congruence].
  - destruct Hq as [Hq | Hq]; [congruence|].
    apply IH; [|exact Hq].
    intros q' Hq'. destruct (H q' (or_intror Hq')) as [Hne Hl]. split; [exact Hne|].
    destruct (list_eq_dec string_dec q' x) as [-> | Hq'x].
    + right. exact Hx.
    + rewrite mk_step_lookup; [exact Hl | right; exact Hq'x].
Qed.

Lemma find_none_iff :
  forall {A} (f : A -> bool) l, find f l = None -> forall x, In x l -> f x = false.
Proof.
  intros A f l H x Hx. induction l as [|y l IH]; [destruct Hx|].
  simpl in H. destruct (f y) eqn:Fy; [discriminate|].
  destruct Hx as [<- | Hx]; [exact Fy | apply IH; assumption].
Qed.

(** A successful [mkdir_p p] keeps every other path as it was and every
    existing path as it was, and leaves [p] a directory. *)
Lemma mkdir_p_ok :
  forall p t t' u, mkdir_p p t = (t', Ok u) ->
    (forall q, lookup q t <> None \/ ~ In q (prefixes p) -> lookup q t' = lookup q t) /\
    is_dir p t' = true.
Proof.
  intros p t t' u H. unfold mkdir_p in H.
  destruct (find (fun q => is_file q t) (prefixes p)) eqn:F; [discriminate|].
  inversion H; subst t' u. clear H. rewrite mkdir_fold_eq. split.
  - intros q Hq. apply fold_mk_step_lookup. exact Hq.
  - destruct (list_eq_dec string_dec p []) as [-> | Hne]; [reflexivity|].
    assert (Hk : forall t0, kind p t0 = lookup p t0)
      by (intro t0; destruct p; [congruence | reflexivity]).
    unfold is_dir. rewrite Hk.
    rewrite (fold_mk_step_dir (prefixes p) t); [reflexivity| |].
    + intros q Hq. split; [eapply prefixes_nonempty; eauto|].
      pose proof (find_none_iff _ _ F q Hq) as Hf. unfold is_file, kind in Hf.
      destruct q as [|b q]; [exfalso; eapply prefixes_nonempty; eauto|].
      destruct (lookup (b :: q) t) as [[|c]|]; auto; discriminate.
    + apply prefixes_self. exact Hne.
Qed.

(** When [p] and its ancestors are directories, [mkdir_p p] does nothing. *)
Lemma mkdir_p_noop :
  forall p t, (forall q, In q (prefixes p) -> lookup q t = Some EDir) ->
    mkdir_p p t = (t, Ok tt).
Proof.
  intros p t H. unfold mkdir_p.
  assert (F : forall L, (forall q, In q L -> lookup q t = Some EDir) ->
                        find (fun q => is_file q t) L = None).
  { induction L as [|x L IH]; intro HL; [reflexivity|].
    simpl. unfold is_file, kind.
    destruct x as [|a x]; [cbn; apply IH; intros; apply HL; right; auto|].
    rewrite (HL _ (or_introl eq_refl)). apply IH. intros; apply HL; right; auto. }
  rewrite (F _ H), mkdir_fold_eq. f_equal.
  assert (G : forall L t0, (forall q, In q L -> lookup q t0 = Some EDir) ->
                           fold_left mk_step L t0 = t0).
  { induction L as [|x L IH]; intros t0 HL; [reflexivity|].
    simpl. unfold mk_step at 2. unfold path_exists, kind.
    destruct x as [|a x]; [cbn; apply IH; intros; apply HL; right; auto|].
    rewrite (HL _ (or_introl eq_refl)). apply IH. intros; apply HL; right; auto. }
  apply G. exact H.
Qed.

Lemma lookup_set_entry_same :
  forall p e t, lookup p t <> None -> lookup p (set_entry p e t) = Some e.
Proof.
  intros p e t. induction t as [|[k e'] t IH]; [simpl; congruence|].
  simpl. destruct (path_eqb p k) eqn:E; simpl; rewrite E; auto.
Qed.

Lemma lookup_set_entry_other :
  forall p q e t, q <> p -> lookup q (set_entry p e t) = lookup q t.
Proof.
  intros p q e t Hqp. induction t as [|[k e'] t IH]; [reflexivity|].
  simpl. destruct (path_eqb p k) eqn:E; simpl.
  - apply path_eqb_true in E. subst k.
    destruct (path_eqb q p) eqn:E2; [apply path_eqb_true in E2; congruence | exact IH].
  - destruct (path_eqb q k); [reflexivity | exact IH].
Qed.

Lemma mkdir_p_err :
  forall p t t' e, mkdir_p p t = (t', Err e) -> t' = t.
Proof.
  intros p t t' e H. unfold mkdir_p in H.
  destruct (find _ _); inversion H; reflexivity.
Qed.

(* ------------------------------------------------------------------ *)
(** ** String lemmas *)

Lemma str_prefix_contains : forall n h, str_prefix n h = true -> str_contains n h = true.
Proof. intros n [|c h] H; simpl; rewrite H; reflexivity. Qed.

Lemma str_prefix_self_app : forall n b, str_prefix n (n ++ b) = true.
Proof.
  induction n as [|a n IH]; intro b; [reflexivity|].
  simpl. rewrite Ascii.eqb_refl. apply IH.
Qed.

Lemma str_contains_app_r :
  forall n a b, str_contains n b = true -> str_contains n (a ++ b) = true.
Proof.
  intros n a b H. induction a as [|c a IH]; [exact H|].
  simpl. rewrite IH. apply orb_true_r.
Qed.

Lemma str_contains_count :
  forall n h, str_contains n h = false -> count_occ n h = 0.
Proof.
  intros n h. induction h as [|c h IH]; simpl; intro H.
  - rewrite orb_false_r in H. rewrite H. reflexivity.
  - apply orb_false_elim in H. destruct H as [H1 H2]. rewrite H1, (IH H2). reflexivity.
Qed.

Lemma str_contains_count_pos :
  forall n h, str_contains n h = true -> 1 <= count_occ n h.
Proof.
  intros n h. induction h as [|c h IH]; simpl; intro H.
  - rewrite orb_false_r in H. rewrite H. lia.
  - destruct (str_prefix n (String c h)); [lia|]. simpl in H. specialize (IH H). lia.
Qed.

Lemma str_prefix_app_long :
  forall m t u, String.length m <= String.length t ->
    str_prefix m (t ++ u) = str_prefix m t.
Proof.
  induction m as [|a m IH]; intros t u H; [reflexivity|].
  destruct t as [|b t]; simpl in H; [lia|].
  simpl. rewrite IH; [reflexivity | lia].
Qed.

Lemma str_prefix_too_long :
  forall m t, String.length t < String.length m -> str_prefix m t = false.
Proof.
  induction m as [|a m IH]; intros t H; simpl in H; [lia|].
  destruct t as [|b t]; [reflexivity|]. simpl in H.
  simpl. rewrite IH; [apply andb_false_r | lia].
Qed.

Lemma str_prefix_cross :
  forall t m c u, str_prefix m (t ++ String c u) = true ->
    String.length t < String.length m -> str_contains (String c EmptyString) m = true.
Proof.
  induction t as [|b t IH]; intros m c u H Hl;
    (destruct m as [|a m]; [simpl in Hl; lia|]).
  - simpl in H. apply andb_prop in H. destruct H as [H _].
    apply Ascii.eqb_eq in H. subst a. apply str_prefix_contains.
    simpl. rewrite Ascii.eqb_refl. reflexivity.
  - simpl in H. apply andb_prop in H. destruct H as [_ H].
    simpl in Hl. simpl. rewrite (IH m c u H); [apply orb_true_r | lia].
Qed.

(** An occurrence of [m] never spans a character that [m] does not contain. *)
Lemma count_occ_split :
  forall m c t u, m <> EmptyString ->
    str_contains (String c EmptyString) m = false ->
    count_occ m (t ++ String c u) = count_occ m t + count_occ m u.
Proof.
  intros m c t u Hm Hc.
  assert (Hnil : count_occ m EmptyString = 0)
    by (destruct m; [congruence | reflexivity]).
  assert (Hcu : count_occ m (String c u) = count_occ m u).
  { simpl. destruct (str_prefix m (String c u)) eqn:P; [|reflexivity].
    exfalso. rewrite (str_prefix_cross EmptyString m c u P) in Hc; [discriminate|].
    destruct m; [congruence | simpl; lia]. }
  induction t as [|a t IH]; [simpl ((EmptyString ++ _)%string); rewrite Hnil, Hcu; reflexivity|].
  change ((String a t ++ String c u)%string) with (String a (t ++ String c u)).
  cbn [count_occ]. rewrite IH.
  destruct (Nat.le_gt_cases (String.length m) (String.length (String a t))) as [Hle | Hgt].
  - change (String a (t ++ String c u)) with ((String a t ++ String c u)%string).
    rewrite (str_prefix_app_long m (String a t) (String c u) Hle). lia.
  - rewrite (str_prefix_too_long m (String a t) Hgt).
    destruct (str_prefix m (String a (t ++ String c u))) eqn:P; [|lia].
    exfalso. rewrite (str_prefix_cross (String a t) m c u P Hgt) in Hc. discriminate.
Qed.

Lemma nl_app : forall x, (nl ++ x)%string = String (ascii_of_nat 10) x.
Proof. reflexivity. Qed.

Lemma dq_app : forall x, (dq ++ x)%string = String (ascii_of_nat 34) x.
Proof. reflexivity. Qed.

Lemma marker_contains_block : forall c0 jr, str_contains marker (c0 ++ block jr) = true.
Proof.
  intros c0 jr. apply str_contains_app_r. unfold block. rewrite nl_app.
  apply str_contains_app_r with (a := String (ascii_of_nat 10) EmptyString).
  apply str_prefix_contains, str_prefix_self_app.
Qed.

(** The managed block holds one marker, plus those in the JDK path. *)
Lemma count_marker_block :
  forall c0 jr,
    count_occ marker (c0 ++ block jr) =
    count_occ marker c0 + 1 + count_occ marker (str_path jr).
Proof.
  intros c0 jr. unfold block. rewrite !nl_app, !dq_app.
  assert (Hm : marker <> EmptyString) by discriminate.
  rewrite (count_occ_split marker (ascii_of_nat 10) c0); [| exact Hm | reflexivity].
  rewrite (count_occ_split marker (ascii_of_nat 10) marker); [| exact Hm | reflexivity].
  rewrite (count_occ_split marker (ascii_of_nat 34) "export JAVA_HOME="); [| exact Hm | reflexivity].
  rewrite (count_occ_split marker (ascii_of_nat 34) (str_path jr)); [| exact Hm | reflexivity].
  match goal with
  | |- context [count_occ marker (String (ascii_of_nat 10) ?r)] =>
      assert (Hr : count_occ marker (String (ascii_of_nat 10) r) = 0) by (vm_compute; reflexivity);
      rewrite Hr
  end.
  assert (H1 : count_occ marker marker = 1) by (vm_compute; reflexivity).
  assert (H2 : count_occ marker "export JAVA_HOME=" = 0) by (vm_compute; reflexivity).
  rewrite H1, H2. lia.
Qed.

(* ------------------------------------------------------------------ *)
(** ** [persist_env_posix]: case analysis *)

Lemma rc_candidates_form :
  forall env home c, In c (rc_candidates env home) -> exists y, c = home ++ [y].
Proof.
  intros env home c H. unfold rc_candidates in H.
  destruct (str_contains _ _); simpl in H;
    (destruct H as [<- | [<- | []]]; eexists; reflexivity).
Qed.

Lemma rc_target_form :
  forall env home t, exists x, rc_target env home t = home ++ [x].
Proof.
  intros env home t. unfold rc_target.
  destruct (find _ _) as [c|] eqn:F; [|eexists; reflexivity].
  apply find_some in F. destruct F as [F _]. exact (rc_candidates_form _ _ _ F).
Qed.

(** The first existing candidate stays the first one when only the
    chosen one is known to exist and the others keep their status. *)
Lemma find_default_stable :
  forall (l : list path) (d tgt : path) (f g : path -> bool),
    (match find f l with Some p => p | None => d end) = tgt ->
    g tgt = true ->
    (forall c, In c l -> c <> tgt -> g c = f c) ->
    (match find g l with Some p => p | None => d end) = tgt.
Proof.
  induction l as [|a l IH]; intros d tgt f g H Hg HG; simpl in *; [exact H|].
  destruct (g a) eqn:Ga.
  - destruct (list_eq_dec string_dec a tgt) as [-> | Hne]; [reflexivity|].
    rewrite (HG a (or_introl eq_refl) Hne) in Ga. rewrite Ga in H. congruence.
  - destruct (f a) eqn:Fa.
    + subst a. congruence.
    + apply (IH d tgt f g H Hg). intros c Hc Hne. apply HG; auto.
Qed.

Lemma persist_env_posix_cases :
  forall env home jr t,
    (exists e, persist_env_posix env home jr t = (t, Err e)) \/
    (exists c0, lookup (rc_target env home t) t = Some (EFile c0) /\
                str_contains marker c0 = true /\
                persist_env_posix env home jr t = (t, Ok tt)) \/
    (exists c0 t1,
        (lookup (rc_target env home t) t = Some (EFile c0) \/
         (lookup (rc_target env home t) t = None /\ c0 = EmptyString)) /\
        str_contains marker c0 = false /\
        persist_env_posix env home jr t = (t1, Ok tt) /\
        lookup (rc_target env home t) t1 = Some (EFile (c0 ++ block jr)) /\
        (forall q, q <> rc_target env home t -> ~ In q (prefixes home) ->
                   lookup q t1 = lookup q t)).
Proof.
  intros env home jr t.
  destruct (rc_target_form env home t) as [x Hx].
  unfold persist_env_posix. cbv zeta. rewrite Hx, removelast_last.
  unfold path_exists, read_text. rewrite kind_snoc.
  assert (Hnp : ~ In (home ++ [x]) (prefixes home)) by apply snoc_not_prefix.
  destruct (lookup (home ++ [x]) t) as [[|c0]|] eqn:L.
  - left. eexists. reflexivity.
  - destruct (str_contains marker c0) eqn:M.
    + right; left. exists c0. auto.
    + cbn [negb]. unfold bind.
      destruct (mkdir_p home t) as [t' [u|e]] eqn:Mk.
      * right; right. destruct (mkdir_p_ok home t t' u Mk) as [Hpres _].
        unfold append_text. rewrite kind_snoc.
        assert (Ht' : lookup (home ++ [x]) t' = Some (EFile c0))
          by (rewrite Hpres; [exact L | left; congruence]).
        rewrite Ht'.
        exists c0, (set_entry (home ++ [x]) (EFile (c0 ++ block jr)) t').
        split; [left; reflexivity|]. split; [exact M|]. split; [reflexivity|].
        split; [apply lookup_set_entry_same; congruence|].
        intros q Hq Hqh. rewrite lookup_set_entry_other by exact Hq.
        apply Hpres. right. exact Hqh.
      * apply mkdir_p_err in Mk. subst t'. left. eexists. reflexivity.
  - cbn [negb]. unfold bind.
    destruct (mkdir_p home t) as [t' [u|e]] eqn:Mk.
    + right; right. destruct (mkdir_p_ok home t t' u Mk) as [Hpres Hdir].
      unfold append_text. rewrite kind_snoc.
      assert (Ht' : lookup (home ++ [x]) t' = None)
        by (rewrite Hpres; [exact L | right; exact Hnp]).
      rewrite Ht', removelast_last, Hdir.
      exists EmptyString, (t' ++ [(home ++ [x], EFile (block jr))]).
      split; [right; auto|]. split; [reflexivity|]. split; [reflexivity|].
      split.
      * rewrite lookup_app, Ht', lookup_single, path_eqb_refl. reflexivity.
      * intros q Hq Hqh. rewrite lookup_app.
        destruct (lookup q t') eqn:Lq.
        -- rewrite <- Lq. apply Hpres. right. exact Hqh.
        -- rewrite lookup_single.
           destruct (path_eqb q (home ++ [x])) eqn:E;
             [apply path_eqb_true in E; congruence|].
           rewrite <- Lq. apply Hpres. right. exact Hqh.
    + apply mkdir_p_err in Mk. subst t'. left. eexists. reflexivity.
Qed.

(** After a successful write the target exists and still comes first among
    the candidates, and it holds the marker: a second call reads it back and
    does nothing. *)
Lemma persist_env_posix_state_stable :
  forall env home jr t,
    fst (persist_env_posix env home jr (fst (persist_env_posix env home jr t))) =
    fst (persist_env_posix env home jr t).
Proof.
  intros env home jr t.
  destruct (persist_env_posix_cases env home jr t)
    as [[e H] | [[c0 [_ [_ H]]] | [c0 [t1 [_ [_ [H [Hl Hfr]]]]]]]];
    rewrite H; simpl; [rewrite H; reflexivity | rewrite H; reflexivity |].
  destruct (rc_target_form env home t) as [x Hx].
  rewrite Hx in Hl, Hfr.
  assert (Ht1 : rc_target env home t1 = home ++ [x]).
  { unfold rc_target. unfold rc_target in Hx.
    apply (find_default_stable _ _ _ (fun p => path_exists p t)); [exact Hx | |].
    - unfold path_exists. rewrite kind_snoc, Hl. reflexivity.
    - intros c Hc Hne. destruct (rc_candidates_form _ _ _ Hc) as [y ->].
      unfold path_exists. rewrite !kind_snoc, Hfr; [reflexivity | exact Hne |].
      apply snoc_not_prefix. }
  unfold persist_env_posix. cbv zeta. rewrite Ht1.
  unfold path_exists, read_text. rewrite kind_snoc, Hl, marker_contains_block.
  reflexivity.
Qed.

(* ------------------------------------------------------------------ *)
(** ** The user variable store *)

Lemma env_set_same :
  forall u k v v', env_set (env_set u k v) k v' = env_set u k v'.
Proof.
  induction u as [|[k' w] u IH]; intros k v v'; cbn [env_set].
  - rewrite String.eqb_refl. reflexivity.
  - destruct (String.eqb k k') eqn:E; cbn [env_set]; rewrite ?String.eqb_refl, ?E, ?IH; reflexivity.
Qed.

Lemma env_set_reset_other :
  forall u k1 v1 k2 v2, k1 <> k2 ->
    env_set (env_set (env_set u k1 v1) k2 v2) k1 v1 = env_set (env_set u k1 v1) k2 v2.
Proof.
  induction u as [|[k' w] u IH]; intros k1 v1 k2 v2 Hne; cbn [env_set].
  - destruct (String.eqb_spec k2 k1); [congruence|]. cbn [env_set].
    rewrite String.eqb_refl. reflexivity.
  - destruct (String.eqb_spec k1 k') as [<- | Hk1]; cbn [env_set].
    + destruct (String.eqb_spec k2 k1); [congruence|]. cbn [env_set].
      rewrite String.eqb_refl. reflexivity.
    + destruct (String.eqb_spec k2 k') as [<- | Hk2]; cbn [env_set].
      * destruct (String.eqb_spec k1 k2); [congruence|].
        rewrite env_set_same. reflexivity.
      * destruct (String.eqb_spec k1 k'); [congruence|].
        rewrite IH by exact Hne. reflexivity.
Qed.

(** Run twice from the same process environment, the Windows integration
    leaves the user store as the first run left it. *)
Lemma persist_env_windows_user_same_env :
  forall env jr u,
    persist_env_windows_user env jr (persist_env_windows_user env jr u) =
    persist_env_windows_user env jr u.
Proof.
  intros env jr u. unfold persist_env_windows_user, setx.
  rewrite (env_set_reset_other u "JAVA_HOME") by discriminate.
  apply env_set_same.
Qed.

(** Markers in the target after a successful first call. *)
Lemma persist_env_posix_marker_count :
  forall env home jr t c0,
    (lookup (rc_target env home t) t = Some (EFile c0) \/
     (lookup (rc_target env home t) t = None /\ c0 = EmptyString)) ->
    snd (persist_env_posix env home jr t) = Ok tt ->
    exists c, lookup (rc_target env home t) (fst (persist_env_posix env home jr t)) = Some (EFile c) /\
      ((str_contains marker c0 = true /\ c = c0) \/
       (count_occ marker c0 = 0 /\
        count_occ marker c = 1 + count_occ marker (str_path jr))).
Proof.
  intros env home jr t c0 Hc0 Hok.
  destruct (persist_env_posix_cases env home jr t)
    as [[e H] | [[c1 [L [M H]]] | [c1 [t1 [L [M [H [Hl _]]]]]]]];
    rewrite H in Hok |- *; cbn [fst snd] in Hok |- *; [discriminate | |].
  - exists c1. rewrite L in Hc0.
    destruct Hc0 as [Hc0 | [Hc0 _]]; [|discriminate].
    injection Hc0 as ->. split; [exact L|]. left. auto.
  - exists (String.append c1 (block jr)). split; [exact Hl|]. right.
    assert (c1 = c0) as ->.
    { destruct L as [L | [L ->]]; rewrite L in Hc0;
        destruct Hc0 as [Hc0 | [Hc0 ->]]; congruence. }
    rewrite count_marker_block, (str_contains_count _ _ M). split; [reflexivity | lia].
Qed.

(* ------------------------------------------------------------------ *)
(** ** Paths under a directory, and [rename] *)

Lemma path_prefix_app : forall p l, path_prefix p (p ++ l) = true.
Proof.
  induction p as [|a p IH]; intro l; [reflexivity|].
  simpl. rewrite String.eqb_refl. apply IH.
Qed.

Lemma path_prefix_true : forall p q, path_prefix p q = true -> exists r, q = p ++ r.
Proof.
  induction p as [|a p IH]; intros q H; [exists q; reflexivity|].
  destruct q as [|b q]; [discriminate|]. simpl in H.
  apply andb_prop in H. destruct H as [Hab H]. apply String.eqb_eq in Hab. subst b.
  destruct (IH q H) as [r ->]. exists r. reflexivity.
Qed.

(** Two directories neither of which contains the other have no common
    descendant. *)
Lemma path_disjoint_app :
  forall a b, path_prefix a b = false -> path_prefix b a = false ->
    forall x z, a ++ x <> b ++ z.
Proof.
  intros a b Hab Hba x z E. apply app_eq_app in E.
  destruct E as [l [[-> _] | [-> _]]];
    [rewrite path_prefix_app in Hba | rewrite path_prefix_app in Hab]; discriminate.
Qed.

Lemma prefixes_prefix : forall p q, In q (prefixes p) -> exists r, p = q ++ r.
Proof.
  induction p as [|a p IH]; simpl; [tauto|].
  intros q [<- | Hq]; [exists p; reflexivity|].
  apply in_map_iff in Hq. destruct Hq as [q' [<- Hq']].
  destruct (IH q' Hq') as [r ->]. exists r. reflexivity.
Qed.

Lemma iterdir_child :
  forall d t ps o, iterdir d t = Ok ps -> In o ps -> exists y, o = d ++ [y].
Proof.
  intros d t ps o H Ho. unfold iterdir in H.
  destruct (kind d t) as [[|]|]; try discriminate. injection H as <-.
  unfold children in Ho. apply in_flat_map in Ho. destruct Ho as [[q e] [_ Ho]].
  destruct (is_child d q) eqn:C; [|destruct Ho]. destruct Ho as [<- | []].
  unfold is_child in C. apply andb_prop in C. destruct C as [P L].
  apply path_prefix_true in P. destruct P as [r ->]. apply Nat.eqb_eq in L.
  rewrite length_app in L. destruct r as [|y [|]]; simpl in L; try lia.
  exists y. reflexivity.
Qed.

(** Entries outside [src] and [dst] keep their contents. *)
Lemma rename_lookup_frame :
  forall src dst q t, path_prefix src q = false -> path_prefix dst q = false ->
    lookup q (rename src dst t) = lookup q t.
Proof.
  intros src dst q t Hs Hd. induction t as [|[k e] t IH]; [reflexivity|].
  simpl. destruct (path_prefix src k) eqn:Pk; simpl; rewrite IH.
  - destruct (path_eqb q (dst ++ skipn (List.length src) k)) eqn:E1.
    + apply path_eqb_true in E1. subst q. rewrite path_prefix_app in Hd. discriminate.
    + destruct (path_eqb q k) eqn:E2; [|reflexivity].
      apply path_eqb_true in E2. subst k. congruence.
  - reflexivity.
Qed.

(** What was under [src] is found under [dst]. *)
Lemma rename_lookup_moved :
  forall src dst q t, (forall r, lookup (dst ++ r) t = None) ->
    lookup (dst ++ q) (rename src dst t) = lookup (src ++ q) t.
Proof.
  intros src dst q t. induction t as [|[k e] t IH]; intro Hn; [reflexivity|].
  assert (Hn' : forall r, lookup (dst ++ r) t = None).
  { intro r. specialize (Hn r). simpl in Hn. destruct (path_eqb _ k); congruence. }
  simpl. destruct (path_prefix src k) eqn:Pk; simpl.
  - apply path_prefix_true in Pk. destruct Pk as [s ->].
    rewrite skipn_app, skipn_all, Nat.sub_diag. simpl.
    destruct (path_eqb (dst ++ q) (dst ++ s)) eqn:E1;
      destruct (path_eqb (src ++ q) (src ++ s)) eqn:E2; auto.
    + apply path_eqb_true, app_inv_head in E1. subst s.
      rewrite path_eqb_refl in E2. discriminate.
    + apply path_eqb_true, app_inv_head in E2. subst s.
      rewrite path_eqb_refl in E1. discriminate.
  - destruct (path_eqb (dst ++ q) k) eqn:E1.
    + specialize (Hn q). simpl in Hn. rewrite E1 in Hn. discriminate.
    + destruct (path_eqb (src ++ q) k) eqn:E2; [|auto].
      apply path_eqb_true in E2. subst k. rewrite path_prefix_app in Pk. discriminate.
Qed.

(** Nothing is left under [src]. *)
Lemma rename_lookup_src_gone :
  forall src dst q t, (forall r, dst ++ r <> src ++ q) ->
    lookup (src ++ q) (rename src dst t) = None.
Proof.
  intros src dst q t Hd. induction t as [|[k e] t IH]; [reflexivity|].
  simpl. destruct (path_prefix src k) eqn:Pk; simpl.
  - destruct (path_eqb (src ++ q) _) eqn:E; [|exact IH].
    apply path_eqb_true in E. exfalso. exact (Hd _ (eq_sym E)).
  - destruct (path_eqb (src ++ q) k) eqn:E; [|exact IH].
    apply path_eqb_true in E. subst k. rewrite path_prefix_app in Pk. discriminate.
Qed.

(* ------------------------------------------------------------------ *)
(** ** Environment Integrator *)


(** Supporting fact for C5: on POSIX a second call leaves the filesystem as
    the first call left it, and on Windows a second call from the same
    process environment leaves the user store as the first left it. *)
Lemma persist_env_idempotent_same_env :
  (forall env home jr t,
      fst (persist_env_posix env home jr (fst (persist_env_posix env home jr t))) =
      fst (persist_env_posix env home jr t)) /\
  (forall env jr u,
      persist_env_windows_user env jr (persist_env_windows_user env jr u) =
      persist_env_windows_user env jr u).
Proof.
  split; [apply persist_env_posix_state_stable | apply persist_env_windows_user_same_env].
Qed.

(** C6 (counterexample): a [.bashrc] that already holds two managed blocks
    is left as it is, two markers and all. *)
Example persist_env_posix_keeps_two_blocks :
  let env := h_environ host_linux in
  let t2 := fst (persist_env_posix env demo_home demo_jdk
                   (fst (persist_env_posix env demo_home demo_jdk fs_two_blocks))) in
  lookup (demo_home ++ [".bashrc"]) t2 =
    Some (EFile (block demo_jdk ++ block demo_jdk)) /\
  count_occ marker (block demo_jdk ++ block demo_jdk) = 2.
Proof. vm_compute. split; reflexivity. Qed.

(** C6: when the first call succeeds, the profile file it picked held at
    most one marker (or did not exist), and the runtime root path does not
    itself contain the marker, then after two calls that file holds exactly
    one marker. *)
Theorem persist_env_posix_twice_one_marker :
  forall env home jr t c0,
    (lookup (rc_target env home t) t = Some (EFile c0) \/
     (lookup (rc_target env home t) t = None /\ c0 = EmptyString)) ->
    count_occ marker c0 <= 1 ->
    count_occ marker (str_path jr) = 0 ->
    snd (persist_env_posix env home jr t) = Ok tt ->
    exists c,
      lookup (rc_target env home t)
             (fst (persist_env_posix env home jr (fst (persist_env_posix env home jr t)))) =
        Some (EFile c) /\
      count_occ marker c = 1.
Proof.
  intros env home jr t c0 Hc0 H1 Hjr Hok.
  rewrite persist_env_posix_state_stable.
  destruct (persist_env_posix_marker_count env home jr t c0 Hc0 Hok)
    as [c [Hl Hcase]].
  exists c. split; [exact Hl|].
  destruct Hcase as [[M ->] | [_ Hc]]; [apply str_contains_count_pos in M|]; lia.
Qed.

Lemma persist_env_posix_twice_one_marker_witness :
  exists c,
    lookup (demo_home ++ [".profile"])
           (fst (persist_env_posix (h_environ host_linux) demo_home demo_jdk
                   (fst (persist_env_posix (h_environ host_linux) demo_home demo_jdk demo_fs)))) =
      Some (EFile c) /\
    count_occ marker c = 1.
Proof.
  apply (persist_env_posix_twice_one_marker (h_environ host_linux) demo_home demo_jdk
           demo_fs EmptyString).
  - right. split; reflexivity.
  - vm_compute. lia.
  - vm_compute. reflexivity.
  - vm_compute. reflexivity.
Defined.

(* ------------------------------------------------------------------ *)
(** ** Relocator: existing destination, several top-level directories *)

(** C3 (counterexample): a fresh move and a reuse of an existing
    destination return the same value, the destination path: the result
    carries no [reused_existing] flag. *)
Example move_extracted_reuse_reported_as_fresh :
  snd (move_extracted_to_base demo_tmp demo_base fs_two_dirs) =
    Ok (demo_base ++ ["jdkA"]) /\
  move_extracted_to_base demo_tmp demo_base fs_two_dirs_reused =
    (fs_two_dirs_reused, Ok (demo_base ++ ["jdkA"])).
Proof. vm_compute. split; reflexivity. Qed.

(** C3: when the base directory exists and base/<name of the first
    top-level directory> already exists, [move_extracted_to_base] moves
    nothing, changes nothing, does not raise and returns that path, exactly
    as it returns the destination after a fresh move. *)
Theorem move_extracted_reuses_existing :
  forall tmp base t ps src others,
    iterdir tmp t = Ok ps ->
    filter (fun p => is_dir p t) ps = src :: others ->
    (forall q, In q (prefixes base) -> lookup q t = Some EDir) ->
    path_exists (base ++ [path_name src]) t = true ->
    move_extracted_to_base tmp base t = (t, Ok (base ++ [path_name src])).
Proof.
  intros tmp base t ps src others Hit Hf Hb Hex.
  unfold move_extracted_to_base. rewrite Hit, Hf. unfold bind.
  rewrite (mkdir_p_noop base t Hb). cbv beta zeta. rewrite Hex. reflexivity.
Qed.

Lemma move_extracted_reuses_existing_witness :
  move_extracted_to_base demo_tmp demo_base fs_two_dirs_reused =
  (fs_two_dirs_reused, Ok (demo_base ++ ["jdkA"])).
Proof.
  apply (move_extracted_reuses_existing demo_tmp demo_base fs_two_dirs_reused
           [demo_tmp ++ ["jdkA"]; demo_tmp ++ ["jdkB"]]
           (demo_tmp ++ ["jdkA"]) [demo_tmp ++ ["jdkB"]]).
  - vm_compute. reflexivity.
  - vm_compute. reflexivity.
  - intros q Hq. vm_compute in Hq.
    repeat (destruct Hq as [Hq | Hq]; [subst q; vm_compute; reflexivity |]).
    destruct Hq.
  - vm_compute. reflexivity.
Defined.

(** The destination base/<n> of a move is disjoint from the scratch
    directory when the base is not inside it and nothing is at or under the
    destination while the scratch directory holds the directory [a]. *)
Lemma dest_disjoint_scratch :
  forall tmp base a n t, path_prefix tmp base = false ->
    lookup (tmp ++ [a]) t = Some EDir ->
    (forall r, lookup ((base ++ [n]) ++ r) t = None) ->
    forall y q r, (base ++ [n]) ++ r <> (tmp ++ [y]) ++ q.
Proof.
  intros tmp base a n t Htb Hsrc Hfree y q r E.
  assert (Htt : path_prefix tmp tmp = true)
    by (pose proof (path_prefix_app tmp []) as P; rewrite app_nil_r in P; exact P).
  apply app_eq_app in E. destruct E as [l [[E _] | [E _]]].
  - rewrite <- app_assoc in E. apply app_eq_app in E.
    destruct E as [l' [[-> _] | [-> E]]].
    + rewrite path_prefix_app in Htb. discriminate.
    + destruct l' as [|x l']; [rewrite app_nil_r in Htb, Htt; congruence|].
      injection E as _ E. destruct l'; discriminate.
  - destruct l as [|z l] using rev_ind.
    + rewrite app_nil_r in E. apply app_inj_tail in E. destruct E as [-> _]. congruence.
    + rewrite app_assoc in E. apply app_inj_tail in E. destruct E as [E _].
      specialize (Hfree (l ++ [a])). rewrite app_assoc, <- E in Hfree. congruence.
Qed.

(** C10 (counterexample): with two top-level directories and base/jdkA
    already present, nothing is moved: [jdkA] stays in the scratch
    directory. *)
Example move_extracted_existing_dest_moves_nothing :
  lookup (demo_tmp ++ ["jdkA"])
         (fst (move_extracted_to_base demo_tmp demo_base fs_two_dirs_reused)) =
    Some EDir.
Proof. vm_compute. reflexivity. Qed.

(** C10: let the scratch directory hold one or more top-level directories,
    the first (in listing order) being [src], and let [mkdir -p] of the base
    succeed. When base/<name of src> then exists, [move_extracted_to_base]
    returns it and moves nothing: the only change is the one of [mkdir -p],
    which keeps every existing entry. When the base is not inside the
    scratch directory and nothing is at or under base/<name of src>,
    [move_extracted_to_base] does not raise: it moves [src], with all it
    contains, to base/<its name>, leaves nothing at its old place, and leaves
    the contents of the other top-level directories as they were. *)
Theorem move_extracted_moves_first_subdir :
  forall tmp base t ps src others t1,
    iterdir tmp t = Ok ps ->
    filter (fun p => is_dir p t) ps = src :: others ->
    mkdir_p base t = (t1, Ok tt) ->
    let dest := base ++ [path_name src] in
    (path_exists dest t1 = true ->
     move_extracted_to_base tmp base t = (t1, Ok dest) /\
     (forall q, lookup q t <> None -> lookup q t1 = lookup q t)) /\
    (path_prefix tmp base = false ->
     (forall r, lookup (dest ++ r) t = None) ->
     move_extracted_to_base tmp base t = (rename src dest t1, Ok dest) /\
     (forall q, lookup (dest ++ q) (rename src dest t1) = lookup (src ++ q) t) /\
     (forall q, lookup (src ++ q) (rename src dest t1) = None) /\
     (forall o q, In o others -> o <> src ->
        lookup (o ++ q) (rename src dest t1) = lookup (o ++ q) t)).
Proof.
  intros tmp base t ps src others t1 Hit Hf Hmk dest.
  destruct (mkdir_p_ok base t t1 tt Hmk) as [Hpres _].
  split.
  { intro Hex. split; [|intros q Hq; apply Hpres; left; exact Hq].
    unfold move_extracted_to_base. rewrite Hit, Hf. unfold bind.
    rewrite Hmk. cbv beta zeta. fold dest. rewrite Hex. reflexivity. }
  intros Htb Hfree.
  assert (Hin : forall o, In o (src :: others) -> exists y, o = tmp ++ [y]).
  { intros o Ho. rewrite <- Hf in Ho. apply filter_In in Ho.
    exact (iterdir_child tmp t ps o Hit (proj1 Ho)). }
  destruct (Hin src (or_introl eq_refl)) as [a Ha].
  assert (Hsrc : lookup (tmp ++ [a]) t = Some EDir).
  { assert (Hd : In src (filter (fun p => is_dir p t) ps)) by (rewrite Hf; left; reflexivity).
    apply filter_In in Hd. destruct Hd as [_ Hd]. rewrite Ha in Hd.
    unfold is_dir in Hd. rewrite kind_snoc in Hd.
    destruct (lookup (tmp ++ [a]) t) as [[|c]|]; congruence. }
  (* nothing under [tmp] is a prefix of [base] *)
  assert (Hnp : forall y q, ~ In ((tmp ++ [y]) ++ q) (prefixes base)).
  { intros y q H. apply prefixes_prefix in H. destruct H as [r Hr].
    rewrite <- !app_assoc in Hr. rewrite Hr, path_prefix_app in Htb. discriminate. }
  assert (Hdis : forall y q r, dest ++ r <> (tmp ++ [y]) ++ q).
  { unfold dest in Hfree |- *. rewrite Ha in Hfree |- *.
    exact (dest_disjoint_scratch tmp base a _ t Htb Hsrc Hfree). }
  assert (Hfree1 : forall r, lookup (dest ++ r) t1 = None).
  { intro r. rewrite Hpres; [apply Hfree|]. right. intro H.
    apply prefixes_length in H. unfold dest in H.
    rewrite !length_app in H. simpl in H. lia. }
  assert (Hex : path_exists dest t1 = false).
  { unfold path_exists, dest. rewrite kind_snoc.
    specialize (Hfree1 []). rewrite app_nil_r in Hfree1. fold dest. rewrite Hfree1.
    reflexivity. }
  assert (Hsd : path_prefix src dest = false).
  { destruct (path_prefix src dest) eqn:P; [|reflexivity].
    apply path_prefix_true in P. destruct P as [r Pr]. exfalso.
    apply (Hdis a r []). rewrite app_nil_r, Pr, Ha. reflexivity. }
  split; [|split; [|split]].
  - unfold move_extracted_to_base. rewrite Hit, Hf. unfold bind.
    rewrite Hmk. cbv beta zeta. fold dest. rewrite Hex.
    unfold shutil_move. rewrite Hsd. reflexivity.
  - intro q. rewrite rename_lookup_moved by exact Hfree1.
    rewrite Ha. apply Hpres. right. apply Hnp.
  - intro q. apply rename_lookup_src_gone. intros r E.
    rewrite Ha in E. exact (Hdis a q r E).
  - intros o q Ho Hne. destruct (Hin o (or_intror Ho)) as [b ->].
    rewrite rename_lookup_frame.
    + apply Hpres. right. apply Hnp.
    + destruct (path_prefix src ((tmp ++ [b]) ++ q)) eqn:P; [|reflexivity].
      apply path_prefix_true in P. destruct P as [r Pr]. rewrite Ha in Pr, Hne.
      rewrite <- !app_assoc in Pr. apply app_inv_head in Pr.
      injection Pr as <- _. congruence.
    + destruct (path_prefix dest ((tmp ++ [b]) ++ q)) eqn:P; [|reflexivity].
      apply path_prefix_true in P. destruct P as [r Pr]. exfalso.
      exact (Hdis b q r (eq_sym Pr)).
Qed.

(** Scenario D: with base/jdkA free, [jdkA] is moved; once base/jdkA exists,
    the same call returns it and moves nothing. *)
Lemma move_extracted_moves_first_subdir_witness :
  let t1 := fst (mkdir_p demo_base fs_two_dirs) in
  let dest := demo_base ++ ["jdkA"] in
  (move_extracted_to_base demo_tmp demo_base fs_two_dirs =
     (rename (demo_tmp ++ ["jdkA"]) dest t1, Ok dest) /\
   (forall q, lookup (dest ++ q) (rename (demo_tmp ++ ["jdkA"]) dest t1) =
              lookup ((demo_tmp ++ ["jdkA"]) ++ q) fs_two_dirs) /\
   (forall q, lookup ((demo_tmp ++ ["jdkA"]) ++ q) (rename (demo_tmp ++ ["jdkA"]) dest t1) = None) /\
   (forall o q, In o [demo_tmp ++ ["jdkB"]] -> o <> demo_tmp ++ ["jdkA"] ->
      lookup (o ++ q) (rename (demo_tmp ++ ["jdkA"]) dest t1) = lookup (o ++ q) fs_two_dirs)) /\
  (move_extracted_to_base demo_tmp demo_base fs_two_dirs_reused =
     (fs_two_dirs_reused, Ok dest) /\
   (forall q, lookup q fs_two_dirs_reused <> None ->
      lookup q fs_two_dirs_reused = lookup q fs_two_dirs_reused)).
Proof.
  intros t1 dest. split.
  - apply (proj2 (move_extracted_moves_first_subdir demo_tmp demo_base fs_two_dirs
                    [demo_tmp ++ ["jdkA"]; demo_tmp ++ ["jdkB"]]
                    (demo_tmp ++ ["jdkA"]) [demo_tmp ++ ["jdkB"]] t1
                    ltac:(vm_compute; reflexivity) ltac:(vm_compute; reflexivity)
                    ltac:(vm_compute; reflexivity))).
    + reflexivity.
    + intro r. vm_compute. reflexivity.
  - apply (proj1 (move_extracted_moves_first_subdir demo_tmp demo_base fs_two_dirs_reused
                    [demo_tmp ++ ["jdkA"]; demo_tmp ++ ["jdkB"]]
                    (demo_tmp ++ ["jdkA"]) [demo_tmp ++ ["jdkB"]] fs_two_dirs_reused
                    ltac:(vm_compute; reflexivity) ltac:(vm_compute; reflexivity)
                    ltac:(vm_compute; reflexivity))).
    vm_compute. reflexivity.
Defined.

(* ================================================================== *)
(** * Further properties of the module *)

(* ------------------------------------------------------------------ *)
(** ** [normalize_os_arch] *)

Lemma lower_ascii_idem : forall c, lower_ascii (lower_ascii c) = lower_ascii c.
Proof. intros [[] [] [] [] [] [] [] []]; reflexivity. Qed.

Lemma str_lower_idem : forall s, str_lower (str_lower s) = str_lower s.
Proof.
  induction s as [|c s IH]; [reflexivity|]. simpl. rewrite lower_ascii_idem, IH. reflexivity.
Qed.

Lemma normalize_os_arch_range :
  forall s m o a, normalize_os_arch s m = Ok (o, a) ->
    (o = "windows" \/ o = "linux" \/ o = "macos") /\ (a = "x86_64" \/ a = "aarch64").
Proof.
  intros s m o a H. unfold normalize_os_arch in H. cbv zeta in H.
  repeat (match type of H with
          | context [if ?b then _ else _] => destruct b
          end; cbn iota in H); try discriminate;
    injection H as <- <-; auto.
Qed.

(** X1: a successful [normalize_os_arch] names one of the three
    supported systems and one of the two supported architectures. *)
Theorem normalize_os_arch_supported :
  forall s m o a, normalize_os_arch s m = Ok (o, a) ->
    (o = "windows" \/ o = "linux" \/ o = "macos") /\ (a = "x86_64" \/ a = "aarch64").
Proof. exact normalize_os_arch_range. Qed.

Lemma normalize_os_arch_supported_witness :
  normalize_os_arch "Darwin" "arm64" = Ok ("macos", "aarch64") /\
  (("macos" = "windows" \/ "macos" = "linux" \/ "macos" = "macos") /\
   ("aarch64" = "x86_64" \/ "aarch64" = "aarch64")).
Proof.
  split; [reflexivity|]. apply (normalize_os_arch_supported "Darwin" "arm64"). reflexivity.
Defined.

(** X2: the platform strings are compared case-insensitively: lowering
    them first never changes the result, errors included. *)
Theorem normalize_os_arch_case_insensitive :
  forall s m, normalize_os_arch (str_lower s) (str_lower m) = normalize_os_arch s m.
Proof. intros s m. unfold normalize_os_arch. rewrite !str_lower_idem. reflexivity. Qed.

(** X3: [normalize_os_arch] only raises [ValueError], whose message names
    the lowered system or the lowered machine. *)
Theorem normalize_os_arch_errors :
  forall s m e, normalize_os_arch s m = Err e ->
    exc_class e = "ValueError" /\
    (exc_msg e = ("Unsupported OS: " ++ str_lower s)%string \/
     exc_msg e = ("Unsupported architecture: " ++ str_lower m)%string).
Proof.
  intros s m e H. unfold normalize_os_arch in H. cbv zeta in H.
  repeat (match type of H with
          | context [if ?b then _ else _] => destruct b
          end; cbn iota in H); try discriminate;
    injection H as <-; simpl; auto.
Qed.

Lemma normalize_os_arch_errors_witness :
  exc_class (mk_exc "ValueError" "Unsupported OS: freebsd") = "ValueError" /\
  (exc_msg (mk_exc "ValueError" "Unsupported OS: freebsd") = ("Unsupported OS: " ++ str_lower "FreeBSD")%string \/
   exc_msg (mk_exc "ValueError" "Unsupported OS: freebsd") =
     ("Unsupported architecture: " ++ str_lower "amd64")%string).
Proof. apply (normalize_os_arch_errors "FreeBSD" "amd64"). reflexivity. Defined.

(* ------------------------------------------------------------------ *)
(** ** [get_latest_zulu]: platform detection *)

(** X4: when [os_name] or [arch] is missing or empty, [get_latest_zulu]
    detects both from the platform, discarding the one that was given; an
    unsupported platform raises before the response is looked at. *)
Theorem get_latest_zulu_redetects :
  forall o a s m r,
    (o = None \/ o = Some "" \/ a = None \/ a = Some "") ->
    get_latest_zulu o a s m r =
    match normalize_os_arch s m with
    | Err e => Err e
    | Ok (o', a') => get_latest_zulu (Some o') (Some a') s m r
    end.
Proof.
  intros o a s m r Hm.
  assert (Hoa : match o, a with
                | Some o, Some a =>
                    if String.eqb o "" || String.eqb a "" then normalize_os_arch s m
                    else Ok (o, a)
                | _, _ => normalize_os_arch s m
                end = normalize_os_arch s m).
  { destruct o as [o|]; [|reflexivity]. destruct a as [a|]; [|reflexivity].
    destruct Hm as [H | [H | [H | H]]]; try discriminate; injection H as ->;
      rewrite ?orb_true_r; reflexivity. }
  unfold get_latest_zulu at 1. cbv zeta. rewrite Hoa.
  destruct (normalize_os_arch s m) as [[o' a']|e] eqn:N; [|reflexivity].
  destruct (normalize_os_arch_range s m o' a' N) as [Ho Ha].
  unfold get_latest_zulu. cbv zeta.
  assert (Hne : String.eqb o' "" || String.eqb a' "" = false)
    by (destruct Ho as [-> | [-> | ->]]; destruct Ha as [-> | ->]; reflexivity).
  rewrite Hne. reflexivity.
Qed.

Lemma get_latest_zulu_redetects_witness :
  get_latest_zulu (Some "linux") None "Windows" "AMD64" (h_resp host_windows_msi) =
  match normalize_os_arch "Windows" "AMD64" with
  | Err e => Err e
  | Ok (o', a') => get_latest_zulu (Some o') (Some a') "Windows" "AMD64" (h_resp host_windows_msi)
  end.
Proof.
  apply get_latest_zulu_redetects. right; right; left. reflexivity.
Defined.

(* ------------------------------------------------------------------ *)
(** ** [persist_env_posix]: what it writes *)

Lemma str_app_nil_r : forall s, (s ++ EmptyString)%string = s.
Proof. induction s as [|c s IH]; [reflexivity | simpl; rewrite IH; reflexivity]. Qed.

Lemma find_all_false :
  forall {A} (f : A -> bool) l, (forall x, In x l -> f x = false) -> find f l = None.
Proof.
  intros A f l H. induction l as [|x l IH]; [reflexivity|].
  simpl. rewrite (H x (or_introl eq_refl)). apply IH. intros y Hy. apply H. right. exact Hy.
Qed.

Lemma persist_env_posix_success_marker :
  forall env home jr t,
    snd (persist_env_posix env home jr t) = Ok tt ->
    exists c, lookup (rc_target env home t) (fst (persist_env_posix env home jr t)) =
                Some (EFile c) /\ str_contains marker c = true.
Proof.
  intros env home jr t Hok.
  destruct (persist_env_posix_cases env home jr t)
    as [[e H] | [[c0 [L [M H]]] | [c0 [t1 [_ [_ [H [Hl _]]]]]]]];
    rewrite H in Hok |- *; cbn [fst snd] in Hok |- *; [discriminate | |].
  - exists c0. auto.
  - exists (String.append c0 (block jr)). split; [exact Hl | apply marker_contains_block].
Qed.

(** X5: when [persist_env_posix] raises, the filesystem is as before: no
    directory was created and the profile was not touched. *)
Theorem persist_env_posix_error_no_change :
  forall env home jr t t' e,
    persist_env_posix env home jr t = (t', Err e) -> t' = t.
Proof.
  intros env home jr t t' e H.
  destruct (persist_env_posix_cases env home jr t)
    as [[e0 H0] | [[c0 [_ [_ H0]]] | [c0 [t1 [_ [_ [H0 _]]]]]]];
    rewrite H0 in H; injection H; congruence.
Qed.

Lemma persist_env_posix_error_no_change_witness :
  fst (persist_env_posix (h_environ host_linux) demo_home demo_jdk fs_bashrc_dir) =
  fs_bashrc_dir.
Proof.
  apply (persist_env_posix_error_no_change (h_environ host_linux) demo_home demo_jdk
           fs_bashrc_dir _
           (mk_exc "IsADirectoryError" (str_path (demo_home ++ [".bashrc"])))).
  vm_compute. reflexivity.
Defined.

(** X6: [persist_env_posix] changes no path other than the profile it
    picked and the directories above the home directory. *)
Theorem persist_env_posix_frame :
  forall env home jr t q,
    q <> rc_target env home t -> ~ In q (prefixes home) ->
    lookup q (fst (persist_env_posix env home jr t)) = lookup q t.
Proof.
  intros env home jr t q Hq Hh.
  destruct (persist_env_posix_cases env home jr t)
    as [[e H] | [[c0 [_ [_ H]]] | [c0 [t1 [_ [_ [H [_ Hfr]]]]]]]];
    rewrite H; cbn [fst]; [reflexivity | reflexivity | exact (Hfr q Hq Hh)].
Qed.

Lemma persist_env_posix_frame_witness :
  lookup ["tmp"] (fst (persist_env_posix (h_environ host_linux) demo_home demo_jdk demo_fs)) =
  lookup ["tmp"] demo_fs.
Proof.
  apply persist_env_posix_frame.
  - vm_compute. discriminate.
  - vm_compute. intros [H | [H | []]]; discriminate.
Defined.

(** X7: an existing profile is only appended to: afterwards it holds its
    old contents followed by nothing or by the managed block. *)
Theorem persist_env_posix_append_only :
  forall env home jr t c0,
    lookup (rc_target env home t) t = Some (EFile c0) ->
    exists s, lookup (rc_target env home t) (fst (persist_env_posix env home jr t)) =
                Some (EFile (c0 ++ s)) /\ (s = EmptyString \/ s = block jr).
Proof.
  intros env home jr t c0 L0.
  destruct (persist_env_posix_cases env home jr t)
    as [[e H] | [[c1 [_ [_ H]]] | [c1 [t1 [L [_ [H [Hl _]]]]]]]];
    rewrite H; cbn [fst].
  - exists EmptyString. rewrite str_app_nil_r. auto.
  - exists EmptyString. rewrite str_app_nil_r. auto.
  - exists (block jr). split; [|right; reflexivity].
    destruct L as [L | [L _]]; rewrite L0 in L; [|discriminate].
    injection L as ->. exact Hl.
Qed.

Lemma persist_env_posix_append_only_witness :
  exists s,
    lookup (demo_home ++ [".bashrc"])
      (fst (persist_env_posix (h_environ host_linux) demo_home demo_jdk
              (demo_fs ++ [(demo_home ++ [".bashrc"], EFile "umask 022")]))) =
      Some (EFile ("umask 022" ++ s)) /\ (s = EmptyString \/ s = block demo_jdk).
Proof.
  apply (persist_env_posix_append_only (h_environ host_linux) demo_home demo_jdk
           (demo_fs ++ [(demo_home ++ [".bashrc"], EFile "umask 022")]) "umask 022").
  vm_compute. reflexivity.
Defined.

(** X8: after a successful call, the profile it picked holds the marker. *)
Theorem persist_env_posix_leaves_marker :
  forall env home jr t,
    snd (persist_env_posix env home jr t) = Ok tt ->
    exists c, lookup (rc_target env home t) (fst (persist_env_posix env home jr t)) =
                Some (EFile c) /\ str_contains marker c = true.
Proof. exact persist_env_posix_success_marker. Qed.

Lemma persist_env_posix_leaves_marker_witness :
  exists c, lookup (rc_target (h_environ host_linux) demo_home demo_fs)
              (fst (persist_env_posix (h_environ host_linux) demo_home demo_jdk demo_fs)) =
            Some (EFile c) /\ str_contains marker c = true.
Proof. apply persist_env_posix_leaves_marker. vm_compute. reflexivity. Defined.

(** X9: when none of the candidate profiles exists, the block goes to
    home/.profile, also for a zsh shell, whose candidates are .zshrc and
    .zprofile only. *)
Theorem persist_env_posix_profile_fallback :
  forall env home jr t,
    (forall c, In c (rc_candidates env home) -> path_exists c t = false) ->
    snd (persist_env_posix env home jr t) = Ok tt ->
    exists c, lookup (home ++ [".profile"]) (fst (persist_env_posix env home jr t)) =
                Some (EFile c) /\ str_contains marker c = true.
Proof.
  intros env home jr t Hnone Hok.
  assert (Ht : rc_target env home t = home ++ [".profile"]).
  { unfold rc_target. rewrite find_all_false by exact Hnone. reflexivity. }
  rewrite <- Ht. exact (persist_env_posix_success_marker env home jr t Hok).
Qed.

Lemma persist_env_posix_profile_fallback_witness :
  exists c, lookup (demo_home ++ [".profile"])
              (fst (persist_env_posix [("SHELL", "/usr/bin/zsh")] demo_home demo_jdk demo_fs)) =
            Some (EFile c) /\ str_contains marker c = true.
Proof.
  apply persist_env_posix_profile_fallback.
  - intros c Hc. vm_compute in Hc.
    destruct Hc as [<- | [<- | []]]; vm_compute; reflexivity.
  - vm_compute. reflexivity.
Defined.

(* ------------------------------------------------------------------ *)
(** ** [persist_env_windows_user]: what it writes *)



Lemma str_app_assoc :
  forall a b c, (a ++ (b ++ c))%string = ((a ++ b) ++ c)%string.
Proof. induction a as [|x a IH]; intros b c; [reflexivity | simpl; rewrite IH; reflexivity]. Qed.







(* ------------------------------------------------------------------ *)
(** ** [move_extracted_to_base]: failures *)

(** X11: when [move_extracted_to_base] raises, nothing has been moved: no
    existing entry has changed, and the only entries that may have been
    added are the missing directories of the base path. *)
Theorem move_extracted_error_frame :
  forall tmp base t t' e q,
    move_extracted_to_base tmp base t = (t', Err e) ->
    lookup q t <> None \/ ~ In q (prefixes base) ->
    lookup q t' = lookup q t.
Proof.
  intros tmp base t t' e q H Hq. unfold move_extracted_to_base in H.
  destruct (iterdir tmp t) as [ps|e0]; [|injection H as <-; reflexivity].
  destruct (filter _ ps) as [|src others]; [injection H as <-; reflexivity|].
  unfold bind in H. destruct (mkdir_p base t) as [t1 [u|e1]] eqn:Mk.
  - destruct (mkdir_p_ok base t t1 u Mk) as [Hpres _]. cbv beta zeta in H.
    destruct (path_exists _ t1); [discriminate|].
    unfold shutil_move in H. destruct (path_prefix _ _); [|discriminate].
    injection H as <-. exact (Hpres q Hq).
  - apply mkdir_p_err in Mk. subst t1. injection H as <-. reflexivity.
Qed.

(** The first top-level directory, jdkA, holds the base directory: the
    base is created, then [shutil.move] refuses to move jdkA into itself. *)
Lemma move_extracted_error_frame_witness :
  lookup (demo_tmp ++ ["jdkA"; "bin"])
    (fst (move_extracted_to_base demo_tmp (demo_tmp ++ ["jdkA"; "inner"]) fs_two_dirs)) =
  lookup (demo_tmp ++ ["jdkA"; "bin"]) fs_two_dirs.
Proof.
  apply (move_extracted_error_frame demo_tmp (demo_tmp ++ ["jdkA"; "inner"]) fs_two_dirs
           (fst (move_extracted_to_base demo_tmp (demo_tmp ++ ["jdkA"; "inner"]) fs_two_dirs))
           (mk_exc "shutil.Error"
              ("Cannot move a directory '" ++ str_path (demo_tmp ++ ["jdkA"])
               ++ "' into itself '" ++ str_path (demo_tmp ++ ["jdkA"; "inner"; "jdkA"]) ++ "'."))).
  - vm_compute. reflexivity.
  - left. vm_compute. discriminate.
Defined.

(* ------------------------------------------------------------------ *)
(** ** [download_file] *)

Lemma concat_empty_cons :
  forall x xs, String.concat "" (x :: xs) = (x ++ String.concat "" xs)%string.
Proof. intros x [|y ys]; [symmetry; apply str_app_nil_r | reflexivity]. Qed.

Lemma kind_nonroot : forall p t, p <> [] -> kind p t = lookup p t.
Proof. intros [|a p] t H; [congruence | reflexivity]. Qed.

Lemma write_chunks_ok :
  forall cs p t c, p <> [] -> lookup p t = Some (EFile c) ->
    exists t', write_chunks p (map Ok cs) t = (t', Ok tt) /\
      lookup p t' = Some (EFile (c ++ String.concat "" cs)) /\
      (forall q, q <> p -> lookup q t' = lookup q t).
Proof.
  induction cs as [|x cs IH]; intros p t c Hp L.
  - exists t. rewrite str_app_nil_r. auto.
  - cbn [map write_chunks]. unfold bind, append_text. rewrite kind_nonroot, L by exact Hp.
    destruct (IH p (set_entry p (EFile (c ++ x)) t) (c ++ x)%string Hp)
      as [t' [Hw [Hl Hfr]]]; [apply lookup_set_entry_same; congruence|].
    exists t'. split; [exact Hw|]. split.
    + rewrite Hl, concat_empty_cons, str_app_assoc. reflexivity.
    + intros q Hq. rewrite Hfr by exact Hq. apply lookup_set_entry_other. exact Hq.
Qed.

Lemma write_chunks_err :
  forall cs e rest p t c, p <> [] -> lookup p t = Some (EFile c) ->
    exists t', write_chunks p (map Ok cs ++ Err e :: rest) t = (t', Err e) /\
      lookup p t' = Some (EFile (c ++ String.concat "" cs)).
Proof.
  induction cs as [|x cs IH]; intros e rest p t c Hp L.
  - exists t. rewrite str_app_nil_r. auto.
  - cbn [map app write_chunks]. unfold bind, append_text. rewrite kind_nonroot, L by exact Hp.
    destruct (IH e rest p (set_entry p (EFile (c ++ x)) t) (c ++ x)%string Hp)
      as [t' [Hw Hl]]; [apply lookup_set_entry_same; congruence|].
    exists t'. split; [exact Hw|].
    rewrite Hl, concat_empty_cons, str_app_assoc. reflexivity.
Qed.

Lemma open_wb_ok :
  forall p t, p <> [] -> lookup p t <> Some EDir -> is_dir (removelast p) t = true ->
    exists t1, open_wb p t = (t1, Ok tt) /\ lookup p t1 = Some (EFile "") /\
      (forall q, q <> p -> lookup q t1 = lookup q t).
Proof.
  intros p t Hp Hnd Hpar. unfold open_wb. rewrite kind_nonroot by exact Hp.
  destruct (lookup p t) as [[|c]|] eqn:L; [congruence| |].
  - eexists. split; [reflexivity|]. split.
    + apply lookup_set_entry_same. congruence.
    + intros q Hq. apply lookup_set_entry_other. exact Hq.
  - unfold is_dir in Hpar. destruct (kind (removelast p) t) as [[|]|]; try discriminate.
    eexists. split; [reflexivity|]. split.
    + rewrite lookup_app, L, lookup_single, path_eqb_refl. reflexivity.
    + intros q Hq. rewrite lookup_app. destruct (lookup q t); [reflexivity|].
      rewrite lookup_single. destruct (path_eqb q p) eqn:E; [|reflexivity].
      apply path_eqb_true in E. congruence.
Qed.

(** X12: when the server answers with a stream that is read to the end,
    [download_file] leaves at [dest] exactly the concatenated chunks
    (replacing an earlier file there) and changes no other path; [dest]
    must not be a directory and its parent directory must exist. *)
Theorem download_file_writes_stream :
  forall net url dest t cs,
    net url = Ok (map Ok cs) ->
    dest <> [] -> lookup dest t <> Some EDir -> is_dir (removelast dest) t = true ->
    exists t', download_file net url dest t = (t', Ok tt) /\
      lookup dest t' = Some (EFile (String.concat "" cs)) /\
      (forall q, q <> dest -> lookup q t' = lookup q t).
Proof.
  intros net url dest t cs Hnet Hp Hnd Hpar. unfold download_file. rewrite Hnet.
  destruct (open_wb_ok dest t Hp Hnd Hpar) as [t1 [Ho [Hl1 Hfr1]]].
  destruct (write_chunks_ok cs dest t1 "" Hp Hl1) as [t' [Hw [Hl Hfr]]].
  exists t'. unfold bind. rewrite Ho, Hw. split; [reflexivity|]. split; [exact Hl|].
  intros q Hq. rewrite Hfr, Hfr1 by exact Hq. reflexivity.
Qed.

Lemma download_file_writes_stream_witness :
  exists t', download_file (fun _ => Ok [Ok "PK"; Ok "zip-data"]) "https://cdn/a.zip"
               ["tmp"; "a.zip"] demo_fs = (t', Ok tt) /\
    lookup ["tmp"; "a.zip"] t' = Some (EFile (String.concat "" ["PK"; "zip-data"])) /\
    (forall q, q <> ["tmp"; "a.zip"] -> lookup q t' = lookup q demo_fs).
Proof.
  apply (download_file_writes_stream _ "https://cdn/a.zip" ["tmp"; "a.zip"] demo_fs
           ["PK"; "zip-data"]).
  - reflexivity.
  - discriminate.
  - vm_compute. discriminate.
  - vm_compute. reflexivity.
Defined.

(** X13: [download_file] creates nothing when the request fails (the file
    is opened only after [raise_for_status]); when the stream fails after
    some chunks, the exception propagates and the partial file holding
    those chunks is left at [dest]. *)
Theorem download_file_failures :
  forall net url dest t,
    (forall e, net url = Err e -> download_file net url dest t = (t, Err e)) /\
    (forall cs e rest,
        net url = Ok (map Ok cs ++ Err e :: rest) ->
        dest <> [] -> lookup dest t <> Some EDir -> is_dir (removelast dest) t = true ->
        exists t', download_file net url dest t = (t', Err e) /\
          lookup dest t' = Some (EFile (String.concat "" cs))).
Proof.
  intros net url dest t. split.
  - intros e Hnet. unfold download_file. rewrite Hnet. reflexivity.
  - intros cs e rest Hnet Hp Hnd Hpar. unfold download_file. rewrite Hnet.
    destruct (open_wb_ok dest t Hp Hnd Hpar) as [t1 [Ho [Hl1 _]]].
    destruct (write_chunks_err cs e rest dest t1 "" Hp Hl1) as [t' [Hw Hl]].
    exists t'. unfold bind. rewrite Ho, Hw. auto.
Qed.

Lemma download_file_failures_witness :
  download_file (fun _ => Err (mk_exc "HTTPError" "404")) "https://cdn/a.zip"
    ["tmp"; "a.zip"] demo_fs = (demo_fs, Err (mk_exc "HTTPError" "404")) /\
  exists t', download_file (fun _ => Ok [Ok "PK"; Err (mk_exc "ConnectionError" "reset")])
               "https://cdn/a.zip" ["tmp"; "a.zip"] demo_fs =
             (t', Err (mk_exc "ConnectionError" "reset")) /\
    lookup ["tmp"; "a.zip"] t' = Some (EFile (String.concat "" ["PK"])).
Proof.
  split.
  - apply (proj1 (download_file_failures (fun _ => Err (mk_exc "HTTPError" "404"))
                    "https://cdn/a.zip" ["tmp"; "a.zip"] demo_fs)).
    reflexivity.
  - apply (proj2 (download_file_failures
                    (fun _ => Ok [Ok "PK"; Err (mk_exc "ConnectionError" "reset")])
                    "https://cdn/a.zip" ["tmp"; "a.zip"] demo_fs) ["PK"] _ []).
    + reflexivity.
    + discriminate.
    + vm_compute. discriminate.
    + vm_compute. reflexivity.
Defined.

(* ------------------------------------------------------------------ *)
(** ** [setup_java]: how the steps compose *)

Lemma str_length_app :
  forall a b, String.length (a ++ b) = String.length a + String.length b.
Proof. induction a as [|c a IH]; intro b; [reflexivity | simpl; rewrite IH; reflexivity]. Qed.

Lemma substring_app_r :
  forall a k m b, substring (String.length a + k) m (a ++ b) = substring k m b.
Proof. induction a as [|c a IH]; intros k m b; [reflexivity | apply IH]. Qed.

Lemma substring_full : forall s, substring 0 (String.length s) s = s.
Proof. induction s as [|c s IH]; [reflexivity | simpl; rewrite IH; reflexivity]. Qed.

Lemma str_split_at :
  forall k s, k <= String.length s ->
    exists a b, s = (a ++ b)%string /\ String.length a = k.
Proof.
  induction k as [|k IH]; intros s H; [exists EmptyString, s; auto|].
  destruct s as [|c s]; simpl in H; [lia|].
  destruct (IH s ltac:(lia)) as [a [b [-> Ha]]].
  exists (String c a), b. simpl. auto.
Qed.

Lemma str_endswith_app : forall p suf, str_endswith (p ++ suf) suf = true.
Proof.
  intros p suf. unfold str_endswith. rewrite str_length_app.
  replace (String.length p + String.length suf - String.length suf)
    with (String.length p + 0) by lia.
  rewrite substring_app_r, substring_full, String.eqb_refl.
  apply andb_true_intro. split; [apply Nat.leb_le; lia | reflexivity].
Qed.

Lemma str_endswith_inv :
  forall s suf, str_endswith s suf = true -> exists p, s = (p ++ suf)%string.
Proof.
  intros s suf H. unfold str_endswith in H. apply andb_prop in H. destruct H as [Hl He].
  apply Nat.leb_le in Hl. apply String.eqb_eq in He.
  destruct (str_split_at (String.length s - String.length suf) s ltac:(lia))
    as [a [b [Hs Ha]]].
  subst s. rewrite str_length_app in Hl, Ha, He.
  assert (Hb : String.length b = String.length suf) by lia.
  exists a.
  replace (String.length a + String.length b - String.length suf)
    with (String.length a + 0) in He by lia.
  rewrite substring_app_r, <- Hb, substring_full in He. rewrite He. reflexivity.
Qed.

Lemma str_app_eq_split :
  forall x c f p suf, (x ++ String c f)%string = (p ++ suf)%string ->
    (exists q, f = (q ++ suf)%string) \/ (exists q, suf = (q ++ String c f)%string).
Proof.
  induction x as [|a x IH]; intros c f p suf E.
  - destruct p as [|c' p]; simpl in E.
    + right. exists EmptyString. symmetry. exact E.
    + injection E as -> ->. left. exists p. reflexivity.
  - destruct p as [|a' p]; simpl in E.
    + right. exists (String a x). symmetry. exact E.
    + injection E as -> E. exact (IH c f p suf E).
Qed.

(** The extension test of [extract_archive] on a path only looks at the
    last component when the suffix has no ["/"]. *)
Lemma str_endswith_after_slash :
  forall x f suf, str_contains "/" suf = false ->
    str_endswith (x ++ String "/" f) suf = str_endswith f suf.
Proof.
  intros x f suf Hs. destruct (str_endswith f suf) eqn:E.
  - apply str_endswith_inv in E. destruct E as [q ->].
    replace (x ++ String "/" (q ++ suf))%string with ((x ++ String "/" q) ++ suf)%string
      by (rewrite <- str_app_assoc; reflexivity).
    apply str_endswith_app.
  - destruct (str_endswith (x ++ String "/" f) suf) eqn:E2; [|reflexivity].
    apply str_endswith_inv in E2. destruct E2 as [p E2].
    destruct (str_app_eq_split x "/" f p suf E2) as [[q Hq] | [q Hq]].
    + rewrite Hq, str_endswith_app in E. discriminate.
    + rewrite Hq in Hs. rewrite str_contains_app_r in Hs; [discriminate|].
      apply str_prefix_contains. reflexivity.
Qed.

Lemma concat_slash_snoc :
  forall l f, l <> [] ->
    String.concat "/" (l ++ [f]) = (String.concat "/" l ++ "/" ++ f)%string.
Proof.
  induction l as [|a l IH]; intros f H; [congruence|].
  destruct l as [|b l]; [reflexivity|].
  change ((a :: b :: l) ++ [f]) with (a :: ((b :: l) ++ [f])).
  assert (Hne : (b :: l) ++ [f] <> []) by (destruct l; discriminate).
  transitivity (a ++ "/" ++ String.concat "/" ((b :: l) ++ [f]))%string.
  { destruct ((b :: l) ++ [f]) eqn:Q; [congruence | reflexivity]. }
  rewrite IH by discriminate.
  change (String.concat "/" (a :: b :: l))
    with (a ++ "/" ++ String.concat "/" (b :: l))%string.
  rewrite !str_app_assoc. reflexivity.
Qed.

Lemma str_path_snoc : forall l f, exists x, str_path (l ++ [f]) = (x ++ String "/" f)%string.
Proof.
  intros l f. unfold str_path. destruct l as [|a l].
  - exists EmptyString. reflexivity.
  - exists ("/" ++ String.concat "/" (a :: l))%string.
    rewrite concat_slash_snoc by discriminate. rewrite <- str_app_assoc. reflexivity.
Qed.

Lemma move_extracted_ok_dest :
  forall tmp base t t' d, move_extracted_to_base tmp base t = (t', Ok d) ->
    exists n, d = base ++ [n].
Proof.
  intros tmp base t t' d H. unfold move_extracted_to_base in H.
  destruct (iterdir tmp t) as [ps|e0]; [|discriminate].
  destruct (filter _ ps) as [|src others]; [discriminate|].
  unfold bind in H. destruct (mkdir_p base t) as [t1 [u|e1]]; [|discriminate].
  cbv beta zeta in H. destruct (path_exists _ t1).
  - injection H as _ <-. eauto.
  - unfold shutil_move in H. destruct (path_prefix _ _); [discriminate|].
    unfold ret in H. injection H as _ <-. eauto.
Qed.

Lemma choose_permanent_base_windows_err :
  forall is_root home env, exists e,
    choose_permanent_base "windows" is_root home env = Err e.
Proof. intros. eexists. reflexivity. Qed.

(** Ltac for walking a successful run: split a [bind] whose result is
    [Ok] into its two steps. *)
Ltac bind_ok H := apply bind_ok_inv in H; destruct H as (? & ? & ? & H); cbv beta iota in H.

(** X14: on Windows the portable path never succeeds ([choose_permanent_base]
    raises), so a successful Windows run always used the MSI installer and
    reports no runtime root. *)
Theorem setup_java_windows_only_msi :
  forall dl up msi h s s' r,
    setup_java dl up msi h s = (s', Ok r) -> r_os r = Some "windows" ->
    mode r = "msi" /\ jdk_root r = None.
Proof.
  intros dl up msi h s s' r H Hos. unfold setup_java in H.
  destruct (h_java_ok h).
  { apply ret_ok_inv in H as [<- _]. discriminate. }
  apply bind_ok_inv in H as (s1 & [o a] & H1 & H). cbv beta iota in H.
  apply bind_ok_inv in H as (s2 & [url fname] & H2 & H). cbv beta iota in H.
  apply bind_ok_inv in H as (s3 & tmpdir & H3 & H).
  apply bind_ok_inv in H as (s4 & [[jb jr] m] & H4 & H). cbv beta iota in H.
  apply ret_ok_inv in H as [<- _]. simpl in Hos |- *. injection Hos as ->.
  apply try_finally_ok_inv in H4 as [s5 H4].
  unfold install_body in H4. apply bind_ok_inv in H4 as (s6 & u & _ & H4).
  destruct (str_endswith (str_lower fname) ".msi"); cbn [String.eqb andb] in H4.
  - apply bind_ok_inv in H4 as (s7 & u7 & _ & H4).
    apply ret_ok_inv in H4 as [E _]. injection E as <- <- <-. auto.
  - unfold archive_path, relocate_step in H4.
    apply bind_ok_inv in H4 as (s7 & jr0 & H4 & _).
    apply bind_ok_inv in H4 as (s8 & base & H4 & _).
    apply of_res_ok_inv in H4 as [E _].
    destruct (choose_permanent_base_windows_err (h_root h) (h_home h) (h_environ h))
      as [e Hw]. congruence.
Qed.

Lemma setup_java_windows_only_msi_witness :
  exists s' r,
    setup_java demo_download demo_unpack demo_msi host_windows_msi (mkSt demo_fs [] [] []) =
      (s', Ok r) /\ mode r = "msi" /\ jdk_root r = None.
Proof.
  do 2 eexists. split; [vm_compute; reflexivity|].
  eapply (setup_java_windows_only_msi demo_download demo_unpack demo_msi host_windows_msi
            (mkSt demo_fs [] [] [])); [vm_compute; reflexivity | reflexivity].
Defined.

(** X15: on Linux and macOS a run whose package file name does not end,
    with this exact case, in [.zip], [.tar.gz] or [.tgz] never succeeds:
    [extract_archive] compares the name case-sensitively, while
    [get_latest_zulu] picked it by its lowered name (e.g. [...-linux_x64.TAR.GZ]). *)
Theorem setup_java_needs_exact_extension :
  forall dl up msi h s o a url fname,
    h_java_ok h = false ->
    normalize_os_arch (h_system h) (h_machine h) = Ok (o, a) ->
    o <> "windows" ->
    get_latest_zulu (Some o) (Some a) (h_system h) (h_machine h) (h_resp h) = Ok (url, fname) ->
    str_endswith fname ".zip" = false ->
    str_endswith fname ".tar.gz" = false ->
    str_endswith fname ".tgz" = false ->
    forall r, snd (setup_java dl up msi h s) <> Ok r.
Proof.
  intros dl up msi h s o a url fname Hj Hn Hw Hg Hz Ht Hg2 r Hr.
  destruct (setup_java dl up msi h s) as [s' r'] eqn:H. simpl in Hr. subst r'.
  unfold setup_java in H. rewrite Hj in H.
  apply bind_ok_inv in H as (s1 & [o1 a1] & H1 & H). cbv beta iota in H.
  apply of_res_ok_inv in H1 as [E1 _]. rewrite Hn in E1. injection E1 as <- <-.
  apply bind_ok_inv in H as (s2 & [url1 fname1] & H2 & H). cbv beta iota in H.
  apply of_res_ok_inv in H2 as [E2 _]. rewrite Hg in E2. injection E2 as <- <-.
  apply bind_ok_inv in H as (s3 & tmpdir & _ & H).
  apply bind_ok_inv in H as (s4 & [[jb jr] m] & H4 & _).
  apply try_finally_ok_inv in H4 as [s5 H4].
  unfold install_body in H4. apply bind_ok_inv in H4 as (s6 & u & _ & H4).
  apply String.eqb_neq in Hw. rewrite Hw in H4. cbn [andb] in H4.
  unfold archive_path, relocate_step in H4.
  apply bind_ok_inv in H4 as (s7 & jr0 & H4 & _).
  apply bind_ok_inv in H4 as (s8 & base & _ & H4).
  apply bind_ok_inv in H4 as (s9 & tmp_extract & _ & H4).
  apply try_finally_ok_inv in H4 as [s10 H4].
  apply bind_ok_inv in H4 as (s11 & u11 & H4 & _).
  destruct (str_path_snoc tmpdir fname) as [x Hx].
  unfold on_fs, extract_archive in H4. rewrite Hx in H4.
  rewrite !str_endswith_after_slash in H4 by reflexivity.
  rewrite Hz, Ht, Hg2 in H4. discriminate.
Qed.

Lemma setup_java_needs_exact_extension_witness :
  snd (setup_java demo_download demo_unpack demo_msi host_upper_ext (mkSt demo_fs [] [] [])) =
    Err (mk_exc "ValueError" "Unsupported archive format.") /\
  (forall r, snd (setup_java demo_download demo_unpack demo_msi host_upper_ext
                             (mkSt demo_fs [] [] [])) <> Ok r).
Proof.
  split; [vm_compute; reflexivity|].
  apply (setup_java_needs_exact_extension _ _ _ _ _ "linux" "x86_64"
           "https://cdn.azul.com/zulu/bin/zulu21-linux_x64.TAR.GZ"
           "zulu21.30.15-ca-jdk21.0.1-linux_x64.TAR.GZ");
    first [reflexivity | discriminate | vm_compute; reflexivity].
Defined.

(** X16: when the platform is unsupported or the package lookup fails,
    [setup_java] raises that error before touching anything: no scratch
    directory, no download, no file or user variable changed. *)
Theorem setup_java_early_failure :
  forall dl up msi h s e,
    h_java_ok h = false ->
    (normalize_os_arch (h_system h) (h_machine h) = Err e \/
     exists o a, normalize_os_arch (h_system h) (h_machine h) = Ok (o, a) /\
       get_latest_zulu (Some o) (Some a) (h_system h) (h_machine h) (h_resp h) = Err e) ->
    setup_java dl up msi h s = (s, Err e).
Proof.
  intros dl up msi h s e Hj He. unfold setup_java. rewrite Hj. unfold bind, of_res.
  destruct He as [Hn | [o [a [Hn Hg]]]]; rewrite Hn; [reflexivity|].
  cbv beta iota. rewrite Hg. reflexivity.
Qed.

(** The metadata service returns no package. *)
Lemma setup_java_early_failure_witness :
  setup_java demo_download demo_unpack demo_msi
    (mkHost false "Linux" "x86_64" false demo_home [] (Ok []))
    (mkSt demo_fs [] [] []) =
  (mkSt demo_fs [] [] [], Err (mk_exc "ValueError" "No matching Zulu JDK found.")).
Proof.
  apply setup_java_early_failure; [reflexivity|].
  right. exists "linux", "x86_64". split; reflexivity.
Defined.

(** X17: a successful portable run reports the detected OS and
    architecture; the OS is not Windows, the runtime root is a direct child
    of the base directory [choose_permanent_base] gives for that OS, and
    [java_bin] is [<runtime root>/bin/java]. *)
Theorem setup_java_portable_result :
  forall dl up msi h s s' r,
    setup_java dl up msi h s = (s', Ok r) -> mode r = "portable" ->
    exists o a base name,
      normalize_os_arch (h_system h) (h_machine h) = Ok (o, a) /\
      r_os r = Some o /\ r_arch r = Some a /\ o <> "windows" /\
      choose_permanent_base o (h_root h) (h_home h) (h_environ h) = Ok base /\
      jdk_root r = Some (str_path (base ++ [name])) /\
      java_bin r = str_path (base ++ [name; "bin"; "java"]).
Proof.
  intros dl up msi h s s' r H Hm. unfold setup_java in H.
  destruct (h_java_ok h).
  { apply ret_ok_inv in H as [<- _]. discriminate. }
  apply bind_ok_inv in H as (s1 & [o a] & H1 & H). cbv beta iota in H.
  apply of_res_ok_inv in H1 as [Hn _].
  apply bind_ok_inv in H as (s2 & [url fname] & _ & H). cbv beta iota in H.
  apply bind_ok_inv in H as (s3 & tmpdir & _ & H).
  apply bind_ok_inv in H as (s4 & [[jb jr] m] & H4 & H). cbv beta iota in H.
  apply ret_ok_inv in H as [<- _]. simpl in Hm |- *. subst m.
  apply try_finally_ok_inv in H4 as [s5 H4].
  unfold install_body in H4. apply bind_ok_inv in H4 as (s6 & u & _ & H4).
  destruct (String.eqb o "windows" && str_endswith (str_lower fname) ".msi").
  { apply bind_ok_inv in H4 as (s7 & u7 & _ & H4).
    apply ret_ok_inv in H4 as [E _]. discriminate. }
  unfold archive_path in H4. apply bind_ok_inv in H4 as (s7 & jr0 & Hr & H4).
  unfold relocate_step in Hr.
  apply bind_ok_inv in Hr as (s8 & base & Hb & Hr).
  apply of_res_ok_inv in Hb as [Hb _].
  apply bind_ok_inv in Hr as (s9 & tmp_extract & _ & Hr).
  apply try_finally_ok_inv in Hr as [s10 Hr].
  apply bind_ok_inv in Hr as (s11 & u11 & _ & Hr).
  unfold on_fs in Hr.
  destruct (move_extracted_to_base tmp_extract base (st_fs s11)) as [t' res0] eqn:Hmv.
  injection Hr as _ ->. destruct (move_extracted_ok_dest _ _ _ _ _ Hmv) as [name ->].
  assert (Hw : o <> "windows").
  { intros ->. destruct (choose_permanent_base_windows_err (h_root h) (h_home h) (h_environ h))
      as [e Hw]. congruence. }
  unfold integrate_step in H4. apply String.eqb_neq in Hw as Hw'. rewrite Hw' in H4.
  apply bind_ok_inv in H4 as (s12 & u12 & _ & H4).
  apply ret_ok_inv in H4 as [E _]. injection E as <- <-.
  exists o, a, base, name. repeat split; auto.
  rewrite <- app_assoc. reflexivity.
Qed.

Lemma setup_java_portable_result_witness :
  exists s' r,
    setup_java demo_download demo_unpack demo_msi host_linux (mkSt demo_fs [] [] []) =
      (s', Ok r) /\ mode r = "portable" /\
    exists o a base name,
      normalize_os_arch (h_system host_linux) (h_machine host_linux) = Ok (o, a) /\
      r_os r = Some o /\ r_arch r = Some a /\ o <> "windows" /\
      choose_permanent_base o (h_root host_linux) (h_home host_linux)
        (h_environ host_linux) = Ok base /\
      jdk_root r = Some (str_path (base ++ [name])) /\
      java_bin r = str_path (base ++ [name; "bin"; "java"]).
Proof.
  do 2 eexists. split; [vm_compute; reflexivity|]. split; [reflexivity|].
  eapply (setup_java_portable_result demo_download demo_unpack demo_msi host_linux
            (mkSt demo_fs [] [] [])); [vm_compute; reflexivity | reflexivity].
Defined.

(** X18: on the Windows installer path, when the download completes and
    [msiexec] exits with a non-zero status [rc], the [CalledProcessError]
    of [install_zulu_msi] is not caught: [setup_java] raises it. *)
Theorem setup_java_msi_failure_propagates :
  forall dl up msiexec h s a url fname rc,
    h_java_ok h = false ->
    normalize_os_arch (h_system h) (h_machine h) = Ok ("windows", a) ->
    get_latest_zulu (Some "windows") (Some a) (h_system h) (h_machine h) (h_resp h) =
      Ok (url, fname) ->
    str_endswith (str_lower fname) ".msi" = true ->
    is_dir ["tmp"] (st_fs s) = true ->
    (forall p t, snd (dl url p t) = Ok tt) ->
    (forall p t, snd (msiexec p t) = rc) ->
    rc <> 0 ->
    snd (setup_java dl up (install_zulu_msi msiexec) h s) =
      Err (mk_exc "CalledProcessError"
             ("Command returned non-zero exit status " ++ string_of_nat rc ++ ".")).
Proof.
  intros dl up msiexec h s a url fname rc Hj Hn Hg Hm Ht Hdl Hmsi Hrc.
  unfold setup_java. rewrite Hj. cbv [bind of_res]. rewrite Hn. cbv beta iota.
  rewrite Hg. cbv beta iota. unfold mkdtemp at 1. rewrite Ht. cbv beta iota zeta.
  unfold try_finally, install_body, on_fs. cbv [bind]. cbv beta iota zeta.
  match goal with |- context [dl url ?p ?t] =>
    pose proof (Hdl p t) as E1; destruct (dl url p t) as [t1 r1] end.
  cbn [snd] in E1. subst r1.
  rewrite String.eqb_refl, Hm. cbn [andb].
  unfold install_zulu_msi.
  match goal with |- context [msiexec ?p ?t] =>
    pose proof (Hmsi p t) as E2; destruct (msiexec p t) as [t2 rc'] end.
  cbn [snd] in E2. subst rc'.
  apply Nat.eqb_neq in Hrc. rewrite Hrc. reflexivity.
Qed.

(** The Windows host of scenario C with an [msiexec] that exits with 1603. *)
Lemma setup_java_msi_failure_propagates_witness :
  snd (setup_java demo_download demo_unpack (install_zulu_msi (fun _ t => (t, 1603)))
                  host_windows_msi (mkSt demo_fs [] [] [])) =
    Err (mk_exc "CalledProcessError"
           ("Command returned non-zero exit status " ++ string_of_nat 1603 ++ ".")).
Proof.
  apply (setup_java_msi_failure_propagates _ _ _ _ _ "x86_64"
           "https://cdn.azul.com/zulu/bin/zulu21-win_x64.msi"
           "zulu21.30.15-ca-jdk21.0.1-win_x64.msi" 1603);
    [reflexivity | vm_compute; reflexivity | vm_compute; reflexivity
    | vm_compute; reflexivity | vm_compute; reflexivity
    | intros; reflexivity | intros; reflexivity | discriminate].
Defined.

(* ------------------------------------------------------------------ *)
(** ** [move_extracted_to_base]: the returned runtime root *)

(** After a rename onto a free [dst], [dst] holds what [src] held. *)
Lemma rename_lookup_dst :
  forall src dst t, lookup dst t = None -> lookup dst (rename src dst t) = lookup src t.
Proof.
  intros src dst t. induction t as [|[k e] t IH]; intro Hn; [reflexivity|].
  simpl in Hn. destruct (path_eqb dst k) eqn:Ek; [discriminate|].
  simpl. destruct (path_prefix src k) eqn:Pk; simpl.
  - apply path_prefix_true in Pk. destruct Pk as [s ->].
    rewrite skipn_app, skipn_all, Nat.sub_diag. simpl.
    destruct s as [|x s].
    + rewrite !app_nil_r, !path_eqb_refl. reflexivity.
    + assert (Hl : forall l : path, l <> l ++ x :: s).
      { intros l E. apply (f_equal (@List.length _)) in E.
        rewrite length_app in E. simpl in E. lia. }
      destruct (path_eqb dst (dst ++ x :: s)) eqn:E1;
        [apply path_eqb_true in E1; exfalso; exact (Hl _ E1)|].
      destruct (path_eqb src (src ++ x :: s)) eqn:E2;
        [apply path_eqb_true in E2; exfalso; exact (Hl _ E2)|].
      apply IH. exact Hn.
  - rewrite Ek. destruct (path_eqb src k) eqn:E2.
    + apply path_eqb_true in E2. subst k.
      pose proof (path_prefix_app src []) as P. rewrite app_nil_r in P. congruence.
    + apply IH. exact Hn.
Qed.

Lemma child_not_in_prefixes : forall base n, ~ In (base ++ [n]) (prefixes base).
Proof.
  intros base n Hin. apply prefixes_prefix in Hin. destruct Hin as [r E].
  apply (f_equal (@List.length _)) in E. rewrite !length_app in E. simpl in E. lia.
Qed.

(** X19: a successful [move_extracted_to_base] returns a path that exists
    afterwards. When nothing was at that path before the call, it is
    base/<y> for the first directory tmp/<y> of the scratch directory (in
    listing order), and it now holds the entry tmp/<y> had: a directory.
    A path that already existed is returned whatever it is, also a file. *)
Theorem move_extracted_result_exists :
  forall tmp base t t' d, move_extracted_to_base tmp base t = (t', Ok d) ->
    path_exists d t' = true /\
    (lookup d t = None ->
     exists ps y others,
       iterdir tmp t = Ok ps /\
       filter (fun p => is_dir p t) ps = (tmp ++ [y]) :: others /\
       d = base ++ [y] /\
       lookup d t' = lookup (tmp ++ [y]) t /\
       lookup d t' = Some EDir).
Proof.
  intros tmp base t t' d H. unfold move_extracted_to_base in H.
  destruct (iterdir tmp t) as [ps|e0] eqn:Hi; [|discriminate].
  destruct (filter (fun p => is_dir p t) ps) as [|src others] eqn:Hf; [discriminate|].
  assert (Hsrc : In src ps /\ is_dir src t = true).
  { apply (proj1 (filter_In (fun p => is_dir p t) src ps)). rewrite Hf. left. reflexivity. }
  destruct Hsrc as [Hin Hd].
  destruct (iterdir_child _ _ _ _ Hi Hin) as [y ->].
  unfold bind in H. destruct (mkdir_p base t) as [t1 [u|e1]] eqn:Hmk; [|discriminate].
  cbv beta zeta in H.
  destruct (mkdir_p_ok _ _ _ _ Hmk) as [Hfr _].
  assert (Hy : path_name (tmp ++ [y]) = y) by apply last_last.
  rewrite Hy in H.
  set (dst := base ++ [y]) in *.
  assert (Hdst : lookup dst t1 = lookup dst t)
    by (apply Hfr; right; apply child_not_in_prefixes).
  assert (Ls : lookup (tmp ++ [y]) t = Some EDir).
  { unfold is_dir in Hd. rewrite kind_snoc in Hd.
    destruct (lookup (tmp ++ [y]) t) as [[|c]|]; congruence. }
  assert (Hs1 : lookup (tmp ++ [y]) t1 = Some EDir)
    by (rewrite Hfr; [exact Ls | left; congruence]).
  assert (Hk : forall u, kind dst u = lookup dst u) by (intro; apply kind_snoc).
  destruct (path_exists dst t1) eqn:Pe.
  - injection H as <- <-. split; [exact Pe|]. intro Hn.
    unfold path_exists in Pe. rewrite Hk, Hdst, Hn in Pe. discriminate.
  - unfold shutil_move in H. destruct (path_prefix (tmp ++ [y]) dst); [discriminate|].
    unfold ret in H. injection H as <- <-.
    assert (Hl : lookup dst t1 = None).
    { unfold path_exists in Pe. rewrite Hk in Pe.
      destruct (lookup dst t1); [discriminate | reflexivity]. }
    assert (Hd' : lookup dst (rename (tmp ++ [y]) dst t1) = Some EDir)
      by (rewrite rename_lookup_dst, Hs1 by exact Hl; reflexivity).
    split.
    + unfold path_exists. rewrite Hk, Hd'. reflexivity.
    + intros _. exists ps, y, others. repeat split; try assumption; try reflexivity.
      rewrite Hd', Ls. reflexivity.
Qed.

(** Scenario D: [jdkA] is moved to a base that did not hold it. *)
Lemma move_extracted_result_exists_witness :
  let t' := fst (move_extracted_to_base demo_tmp demo_base fs_two_dirs) in
  move_extracted_to_base demo_tmp demo_base fs_two_dirs = (t', Ok (demo_base ++ ["jdkA"])) /\
  path_exists (demo_base ++ ["jdkA"]) t' = true /\
  (lookup (demo_base ++ ["jdkA"]) fs_two_dirs = None ->
   exists ps y others,
     iterdir demo_tmp fs_two_dirs = Ok ps /\
     filter (fun p => is_dir p fs_two_dirs) ps = (demo_tmp ++ [y]) :: others /\
     demo_base ++ ["jdkA"] = demo_base ++ [y] /\
     lookup (demo_base ++ ["jdkA"]) t' = lookup (demo_tmp ++ [y]) fs_two_dirs /\
     lookup (demo_base ++ ["jdkA"]) t' = Some EDir).
Proof.
  intro t'.
  assert (H : move_extracted_to_base demo_tmp demo_base fs_two_dirs =
                (t', Ok (demo_base ++ ["jdkA"]))) by (vm_compute; reflexivity).
  split; [exact H|]. exact (move_extracted_result_exists _ _ _ _ _ H).
Defined.
